(** * Shallow embedding of the utility-workers request handlers

    Two Hono workers: [pdf-text] ([POST /extract]) and [ai-parser]
    ([POST /parse], [GET /health]), plus the shared helpers
    [withTiming] and [isValidPdf] of [packages/shared/src/utils.ts].

    Every handler is a function of what it receives from the outside
    world: the outcome of reading the request body, the environment
    bindings, the outcome of the external call, and the readings of
    [performance.now()].  It returns the HTTP status, the response body
    record and the external calls it performed. *)

From Stdlib Require Import Strings.String Strings.Ascii Strings.Byte List ZArith QArith Qround Lia Bool.
Import ListNotations.
Open Scope Z_scope.
Open Scope string_scope.
Local Set Warnings "-register-all".

(** ** Values shared by both workers *)

(** A value thrown inside a [try] block: an [Error] instance with its
    [message], or anything else. *)
Inductive thrown :=
| ErrObj (message : string)
| NonErr.

(** [T | thrown]: the outcome of an operation that may throw. *)
Inductive result (A : Type) :=
| Ok (a : A)
| Throw (e : thrown).
Arguments Ok {A} a.
Arguments Throw {A} e.

(** [Math.round] on a real number: nearest integer, ties towards +oo. *)
Definition Math_round (q : Q) : Z := Qfloor (q + (1 # 2))%Q.

(** Readings of [performance.now()] during one request:
    [t_start] at handler entry, [t_call_begin]/[t_call_end] inside
    [withTiming], [t_catch] in the outer [catch] block. *)
Record clock := {
  t_start : Q;
  t_call_begin : Q;
  t_call_end : Q;
  t_catch : Q;
}.

(** [withTiming]: [durationMs] of a call that returned. *)
Definition withTiming_duration (clk : clock) : Z :=
  Math_round (t_call_end clk - t_call_begin clk)%Q.

(** The outer [catch] block's [processingTimeMs]. *)
Definition catch_elapsed (clk : clock) : Z :=
  Math_round (t_catch clk - t_start clk)%Q.

(** Template-literal rendering [${n}] of an integral number. *)
Fixpoint digits_acc (fuel : nat) (n : Z) (acc : string) : string :=
  match fuel with
  | O => acc
  | S f =>
      let acc' := String (ascii_of_nat (48 + Z.to_nat (n mod 10))) acc in
      if Z.ltb n 10 then acc' else digits_acc f (n / 10) acc'
  end.

Definition number_to_string (n : Z) : string :=
  let fuel := S (Z.to_nat (Z.log2 (Z.abs n))) in
  if Z.ltb n 0 then String "-" (digits_acc fuel (- n) "")
  else digits_acc fuel n "".

(** ** [packages/shared/src/utils.ts] *)

(** [String.fromCharCode(...header)] *)
Definition fromCharCode (bs : list byte) : string :=
  string_of_list_ascii (map ascii_of_byte bs).

(** [isValidPdf(buffer)] *)
Definition isValidPdf (buffer : list byte) : bool :=
  if Nat.ltb (length buffer) 5 then false
  else
    let header := firstn 5 buffer in
    let magic := fromCharCode header in
    String.prefix "%PDF-" magic.

(** ** [pdf-text] worker: [POST /extract] *)

(** [PdfExtractResponse] ([packages/shared/src/pdf-types.ts]). *)
Record PdfExtractResponse := {
  pdf_success : bool;
  pdf_text : string;
  pdf_pageCount : Z;
  pdf_error : option string;
  pdf_processingTimeMs : option Z;
}.

(** What [getDocumentProxy] followed by [extractText(pdf, {mergePages:true})]
    produce: the merged [text] (possibly [null]/[undefined]) and
    [totalPages], or a thrown value. *)
Definition engine_outcome := result (option string * Z).

Definition maxSize : Z := 50 * 1024 * 1024.

(** The handler: status, body, and the number of calls into the PDF
    engine.  [buffer_in] is the outcome of [c.req.arrayBuffer()]. *)
Definition extract_handler (buffer_in : result (list byte))
    (engine : engine_outcome) (clk : clock)
    : Z * PdfExtractResponse * nat :=
  let fail e :=
    (500, {| pdf_success := false; pdf_text := ""; pdf_pageCount := 0;
             pdf_error := Some (match e with ErrObj m => m
                                 | NonErr => "Unknown extraction error" end);
             pdf_processingTimeMs := Some (catch_elapsed clk) |}) in
  match buffer_in with
  | Throw e => (fail e, 0%nat)
  | Ok buffer =>
      let byteLength := Z.of_nat (length buffer) in
      if Z.eqb byteLength 0 then
        (400, {| pdf_success := false; pdf_text := ""; pdf_pageCount := 0;
                 pdf_error := Some "No PDF data provided";
                 pdf_processingTimeMs := None |}, 0%nat)
      else if negb (isValidPdf buffer) then
        (400, {| pdf_success := false; pdf_text := ""; pdf_pageCount := 0;
                 pdf_error := Some "Invalid PDF format: missing PDF header";
                 pdf_processingTimeMs := None |}, 0%nat)
      else if Z.gtb byteLength maxSize then
        (413, {| pdf_success := false; pdf_text := ""; pdf_pageCount := 0;
                 pdf_error := Some ("PDF too large: "
                   ++ number_to_string
                        (Math_round (inject_Z byteLength / 1024 / 1024)%Q)
                   ++ "MB exceeds 50MB limit");
                 pdf_processingTimeMs := None |}, 0%nat)
      else
        match engine with
        | Throw e => (fail e, 1%nat)
        | Ok (text, totalPages) =>
            (200, {| pdf_success := true;
                     pdf_text := match text with Some t => t | None => "" end;
                     pdf_pageCount := totalPages;
                     pdf_error := None;
                     pdf_processingTimeMs := Some (withTiming_duration clk) |},
             1%nat)
        end
  end.

(** ** JavaScript values as produced by [JSON.parse] *)

Inductive jsval :=
| JUndefined
| JNull
| JBool (b : bool)
| JNumber (q : Q)
| JString (s : string)
| JArray (items : list jsval)
| JObject (members : list (string * jsval)).

(** [!!v] *)
Definition truthy (v : jsval) : bool :=
  match v with
  | JUndefined | JNull => false
  | JBool b => b
  | JNumber q => negb (Qeq_bool q 0)
  | JString s => negb (String.eqb s "")
  | JArray _ | JObject _ => true
  end.

(** [typeof v] *)
Definition typeof (v : jsval) : string :=
  match v with
  | JUndefined => "undefined"
  | JNull => "object"
  | JBool _ => "boolean"
  | JNumber _ => "number"
  | JString _ => "string"
  | JArray _ | JObject _ => "object"
  end.

(** Own member [k] of an object; a later duplicate overrides an earlier
    one, as in [JSON.parse]. *)
Fixpoint member (k : string) (ms : list (string * jsval)) : jsval :=
  match ms with
  | [] => JUndefined
  | (k', v) :: rest =>
      match member k rest with
      | JUndefined => if String.eqb k' k then v else JUndefined
      | w => w
      end
  end.

(** [v.k] for the non-index property names the handlers read
    ([text], [schema], [model], ...): a [TypeError] on [null] and
    [undefined], the own member on objects, [undefined] otherwise. *)
Definition get_prop (v : jsval) (k : string) : result jsval :=
  match v with
  | JUndefined =>
      Throw (ErrObj ("Cannot read properties of undefined (reading '" ++ k ++ "')"))
  | JNull =>
      Throw (ErrObj ("Cannot read properties of null (reading '" ++ k ++ "')"))
  | JObject ms => Ok (member k ms)
  | _ => Ok JUndefined
  end.

(** [s.length] of a value already known to be a string. *)
Definition js_length (v : jsval) : nat :=
  match v with JString s => String.length s | _ => 0 end.

(** Destructuring default [{ k = d } = body]: applied when the member is
    [undefined]. *)
Definition with_default (v d : jsval) : jsval :=
  match v with JUndefined => d | _ => v end.

Definition bind {A B} (r : result A) (f : A -> result B) : result B :=
  match r with Ok a => f a | Throw e => Throw e end.
Notation "x <- r ;; k" := (bind r (fun x => k))
  (at level 61, r at next level, right associativity).

(** [error instanceof Error ? error.message : dflt] *)
Definition message_or (e : thrown) (dflt : string) : string :=
  match e with ErrObj m => m | NonErr => dflt end.

(** ** [ai-parser] worker *)

(** [Bindings]: each secret is absent or a string. *)
Record Bindings := {
  CF_AI_GATEWAY_ACCOUNT_ID : option string;
  CF_AI_GATEWAY_ID : option string;
  CF_AIG_AUTH_TOKEN : option string;
  OPENROUTER_API_KEY : option string;
}.

(** Truthiness of an optional string binding. *)
Definition env_truthy (o : option string) : bool :=
  match o with Some s => negb (String.eqb s "") | None => false end.

(** [${o}] of an optional string binding. *)
Definition env_str (o : option string) : string :=
  match o with Some s => s | None => "undefined" end.

Record ApiConfig := {
  url : string;
  authHeader : string;
  authValue : string;
}.

Definition no_config_message : string :=
  "No API configuration found. Set CF_AI_GATEWAY_* or OPENROUTER_API_KEY secrets.".

Definition direct_url : string := "https://openrouter.ai/api/v1/chat/completions".

Definition gateway_url (env : Bindings) : string :=
  "https://gateway.ai.cloudflare.com/v1/" ++ env_str (CF_AI_GATEWAY_ACCOUNT_ID env)
  ++ "/" ++ env_str (CF_AI_GATEWAY_ID env) ++ "/openrouter".

(** [buildApiUrl(env)] *)
Definition buildApiUrl (env : Bindings) : result ApiConfig :=
  if env_truthy (CF_AI_GATEWAY_ACCOUNT_ID env) && env_truthy (CF_AI_GATEWAY_ID env)
     && env_truthy (CF_AIG_AUTH_TOKEN env) then
    Ok {| url := gateway_url env ++ "/chat/completions";
          authHeader := "cf-aig-authorization";
          authValue := "Bearer " ++ env_str (CF_AIG_AUTH_TOKEN env) |}
  else if env_truthy (OPENROUTER_API_KEY env) then
    Ok {| url := direct_url;
          authHeader := "Authorization";
          authValue := "Bearer " ++ env_str (OPENROUTER_API_KEY env) |}
  else Throw (ErrObj no_config_message).

(** [GET /health] body. *)
Record HealthConfig := {
  aiGateway : bool;
  directOpenRouter : bool;
}.

Record HealthResponse := {
  health_status : string;
  health_service : string;
  health_config : HealthConfig;
}.

Definition health_handler (env : Bindings) : Z * HealthResponse :=
  let hasGateway := env_truthy (CF_AI_GATEWAY_ACCOUNT_ID env)
                    && env_truthy (CF_AI_GATEWAY_ID env) in
  let hasDirectKey := env_truthy (OPENROUTER_API_KEY env) in
  (200, {| health_status := "ok"; health_service := "ai-parser";
           health_config := {| aiGateway := hasGateway;
                               directOpenRouter := hasDirectKey |} |}).

(** [AiParseResponse] ([packages/shared/src/ai-types.ts]). *)
Record Usage := {
  promptTokens : Z;
  completionTokens : Z;
  totalTokens : Z;
}.

Record AiParseResponse := {
  ai_success : bool;
  ai_data : jsval;
  ai_usage : option Usage;
  ai_error : option string;
  ai_processingTimeMs : option Z;
}.

(** The completion body as the handler declares it:
    [{ choices: Array<{ message: { content: string | null } }>; usage?: ... }].
    [None] stands for a [null] or missing member. *)
Record ApiMessage := { content : option string }.
Record ApiChoice := { message : option ApiMessage }.
Record ApiUsage := {
  prompt_tokens : Z;
  completion_tokens : Z;
  total_tokens : Z;
}.
Record ApiResult := {
  choices : option (list ApiChoice);
  usage : option ApiUsage;
}.

(** What [fetch] yields: a thrown value (network failure), or a
    [Response] with its [status], the text [response.text()] resolves to
    and the outcome of [response.json()]. *)
Inductive Upstream :=
| FetchThrows (e : thrown)
| FetchResponse (status : Z) (body_text : string) (body_json : result ApiResult).

(** [response.ok] *)
Definition response_ok (status : Z) : bool := Z.leb 200 status && Z.leb status 299.

(** One outbound request: [fetch(url, { method: "POST", headers, body })]. *)
Record Outbound := {
  out_url : string;
  out_headers : list (string * string);
  out_body : jsval;
}.

Definition default_systemPrompt : string :=
  "Extract the requested information from the text and return valid JSON matching the schema.".
Definition default_model : string := "google/gemini-2.5-flash-lite".
Definition maxTextSize : nat := 100 * 1024.

(** The object passed to [JSON.stringify] as the request body. *)
Definition request_body (model systemPrompt text schema temperature maxTokens
    providerSort : jsval) : jsval :=
  JObject
    ([("model", model);
      ("messages",
        JArray [JObject [("role", JString "system"); ("content", systemPrompt)];
                JObject [("role", JString "user"); ("content", text)]]);
      ("response_format",
        JObject [("type", JString "json_schema");
                 ("json_schema",
                   JObject [("name", JString "extraction");
                            ("strict", JBool true);
                            ("schema", schema)])]);
      ("temperature", temperature);
      ("max_tokens", maxTokens)]
     ++ (if truthy providerSort then
           [("provider",
              JObject [("sort", providerSort);
                       ("require_parameters", JBool true);
                       ("allow_fallbacks", JBool false)])]
         else [])).

(** The function run under [withTiming]: the fetch, then
    [throw new Error(`API error (${status}): ${errorText}`)] on a non-ok
    status, else [response.json()]. *)
Definition call_api (up : Upstream) : result ApiResult :=
  match up with
  | FetchThrows e => Throw e
  | FetchResponse status errorText json =>
      if negb (response_ok status) then
        Throw (ErrObj ("API error (" ++ number_to_string status ++ "): " ++ errorText))
      else json
  end.

(** [apiResult.choices?.[0]?.message?.content] *)
Definition first_content (r : ApiResult) : option string :=
  match choices r with
  | None => None
  | Some cs =>
      match cs with
      | [] => None
      | c :: _ => match message c with None => None | Some m => content m end
      end
  end.

Definition convert_usage (u : option ApiUsage) : option Usage :=
  match u with
  | Some u => Some {| promptTokens := prompt_tokens u;
                      completionTokens := completion_tokens u;
                      totalTokens := total_tokens u |}
  | None => None
  end.

Definition parse_failure (msg : string) (time : option Z) : AiParseResponse :=
  {| ai_success := false; ai_data := JNull; ai_usage := None;
     ai_error := Some msg; ai_processingTimeMs := time |}.

Section AiParser.

(** [JSON.parse] on a string: the parsed value, or [None] when it throws. *)
Variable JSON_parse : string -> option jsval.

(** Lines 223-262: classification of the model's reply. *)
Definition normalize (content : option string) (u : option ApiUsage)
    (durationMs : Z) : Z * AiParseResponse :=
  match content with
  | None | Some "" =>
      (500, parse_failure "AI returned empty response" (Some durationMs))
  | Some c =>
      match JSON_parse c with
      | None =>
          (500, parse_failure ("AI returned invalid JSON: " ++ substring 0 100 c ++ "...")
                  (Some durationMs))
      | Some parsedData =>
          (200, {| ai_success := true; ai_data := parsedData;
                   ai_usage := convert_usage u;
                   ai_error := None; ai_processingTimeMs := Some durationMs |})
      end
  end.

(** The body of the outer [try] block: the outbound requests performed
    and either an early [return] or a thrown value. *)
Definition parse_try (env : Bindings) (req : result jsval) (up : Upstream)
    (clk : clock) : list Outbound * result (Z * AiParseResponse) :=
  match
    (body <- req ;;
     text <- get_prop body "text" ;;
     Ok (body, text))
  with
  | Throw e => ([], Throw e)
  | Ok (body, text) =>
  if negb (truthy text) || negb (String.eqb (typeof text) "string") then
    ([], Ok (400, parse_failure "Missing or invalid 'text' field" None))
  else
  match get_prop body "schema" with
  | Throw e => ([], Throw e)
  | Ok schema =>
  if negb (truthy schema) || negb (String.eqb (typeof schema) "object") then
    ([], Ok (400, parse_failure "Missing or invalid 'schema' field" None))
  else if Nat.ltb maxTextSize (js_length text) then
    ([], Ok (413, parse_failure
                   ("Text too large: "
                    ++ number_to_string
                         (Math_round (inject_Z (Z.of_nat (js_length text)) / 1024)%Q)
                    ++ "KB exceeds 100KB limit") None))
  else
  match buildApiUrl env with
  | Throw e =>
      ([], Ok (500, parse_failure (message_or e "API configuration error") None))
  | Ok apiConfig =>
  match
    (sp <- get_prop body "systemPrompt" ;;
     md <- get_prop body "model" ;;
     tp <- get_prop body "temperature" ;;
     mt <- get_prop body "maxTokens" ;;
     ps <- get_prop body "providerSort" ;;
     Ok (with_default sp (JString default_systemPrompt),
         with_default md (JString default_model),
         with_default tp (JNumber 0),
         with_default mt (JNumber 4096),
         ps))
  with
  | Throw e => ([], Throw e)
  | Ok (systemPrompt, model, temperature, maxTokens, providerSort) =>
      let out := {| out_url := url apiConfig;
                    out_headers := [("Content-Type", "application/json");
                                    (authHeader apiConfig, authValue apiConfig)];
                    out_body := request_body model systemPrompt text schema
                                  temperature maxTokens providerSort |} in
      ([out],
       match call_api up with
       | Throw e => Throw e
       | Ok apiResult =>
           Ok (normalize (first_content apiResult) (usage apiResult)
                 (withTiming_duration clk))
       end)
  end
  end
  end
  end.

(** [POST /parse]: status, body, and the outbound requests. *)
Definition parse_handler (env : Bindings) (req : result jsval) (up : Upstream)
    (clk : clock) : Z * AiParseResponse * list Outbound :=
  let (calls, r) := parse_try env req up clk in
  match r with
  | Ok (status, resp) => (status, resp, calls)
  | Throw e =>
      (500, parse_failure (message_or e "Unknown error") (Some (catch_elapsed clk)),
       calls)
  end.

End AiParser.

(** ** Concrete inputs and spec-side vocabulary *)

Definition pdf_signature : list byte := ["%"; "P"; "D"; "F"; "-"]%byte.

Definition clk0 : clock :=
  {| t_start := 0; t_call_begin := 1; t_call_end := (2543 # 10); t_catch := 300 |}.

Definition env_gateway : Bindings :=
  {| CF_AI_GATEWAY_ACCOUNT_ID := Some "acct"; CF_AI_GATEWAY_ID := Some "gw";
     CF_AIG_AUTH_TOKEN := Some "tok"; OPENROUTER_API_KEY := Some "key" |}.
Definition env_none : Bindings :=
  {| CF_AI_GATEWAY_ACCOUNT_ID := None; CF_AI_GATEWAY_ID := None;
     CF_AIG_AUTH_TOKEN := None; OPENROUTER_API_KEY := None |}.

(** A [JSON.parse] that recognises the one document [[1]] used below. *)
Definition parse_name_doc (s : string) : option jsval :=
  if String.eqb s "[1]" then Some (JArray [JNumber 1])
  else None.

Definition jane_members : list (string * jsval) :=
  [("text", JString "Jane is an engineer");
   ("schema", JObject [("type", JString "object")])].

Definition jane_request : jsval := JObject jane_members.

Definition jane_reply : ApiResult :=
  {| choices := Some [{| message := Some {| content := Some "[1]" |} |}];
     usage := None |}.

(** Spec-side vocabulary for request bodies. *)
Definition is_string (v : jsval) : bool :=
  match v with JString _ => true | _ => false end.

(** A JavaScript object: a JSON object or array. *)
Definition is_object (v : jsval) : bool :=
  match v with JObject _ | JArray _ => true | _ => false end.

(** The member [k] of a request body, [undefined] when it has none. *)
Definition field (body : jsval) (k : string) : jsval :=
  match body with JObject ms => member k ms | _ => JUndefined end.

(** An optional binding holding a non-empty string. *)
Definition configured (o : option string) : Prop :=
  exists s, o = Some s /\ s <> "".

(** The request the handler sends once [body] has passed validation. *)
Definition outbound_for (cfg : ApiConfig) (ms : list (string * jsval)) : Outbound :=
  {| out_url := url cfg;
     out_headers := [("Content-Type", "application/json");
                     (authHeader cfg, authValue cfg)];
     out_body :=
       request_body (with_default (member "model" ms) (JString default_model))
         (with_default (member "systemPrompt" ms) (JString default_systemPrompt))
         (member "text" ms) (member "schema" ms)
         (with_default (member "temperature" ms) (JNumber 0))
         (with_default (member "maxTokens" ms) (JNumber 4096))
         (member "providerSort" ms) |}.

(** A text of 102,401 characters. *)
Definition long_text : string := string_of_list_ascii (repeat "a"%char (Z.to_nat 102401)).

Definition env_direct : Bindings :=
  {| CF_AI_GATEWAY_ACCOUNT_ID := Some "acct"; CF_AI_GATEWAY_ID := None;
     CF_AIG_AUTH_TOKEN := Some "tok"; OPENROUTER_API_KEY := Some "key" |}.

Definition cfg_gateway : ApiConfig :=
  {| url := "https://gateway.ai.cloudflare.com/v1/acct/gw/openrouter/chat/completions";
     authHeader := "cf-aig-authorization"; authValue := "Bearer tok" |}.

(** A body of 52,428,801 bytes starting with [%PDF-]. *)
Definition oversized_pdf : list byte :=
  app pdf_signature (repeat x00 (Z.to_nat 52428796)).

(** Bindings with the gateway account and gateway ids but no token. *)
Definition env_gateway_no_token : Bindings :=
  {| CF_AI_GATEWAY_ACCOUNT_ID := Some "acct"; CF_AI_GATEWAY_ID := Some "gw";
     CF_AIG_AUTH_TOKEN := None; OPENROUTER_API_KEY := None |}.

(** A body of exactly 52,428,800 bytes starting with [%PDF-]. *)
Definition limit_pdf : list byte :=
  app pdf_signature (repeat x00 (Z.to_nat 52428795)).

(** A text of exactly 102,400 characters. *)
Definition limit_text : string := string_of_list_ascii (repeat "a"%char (Z.to_nat 102400)).

(** A [JSON.parse] that recognises the document [null]. *)
Definition parse_null_doc (s : string) : option jsval :=
  if String.eqb s "null" then Some JNull else None.

Definition null_reply : ApiResult :=
  {| choices := Some [{| message := Some {| content := Some "null" |} |}];
     usage := Some {| prompt_tokens := 10; completion_tokens := 1; total_tokens := 11 |} |}.

(** A reply whose first choice has a [null] content and whose second
    choice holds a JSON document. *)
Definition first_null_reply : ApiResult :=
  {| choices := Some [{| message := Some {| content := None |} |};
                      {| message := Some {| content := Some "[1]" |} |}];
     usage := None |}.

Definition sorted_members : list (string * jsval) :=
  jane_members ++ [("providerSort", JArray [])].

Definition limit_members : list (string * jsval) :=
  [("text", JString limit_text); ("schema", JObject [])].

(** ** Sanity checks on concrete inputs *)

Example number_to_string_mib : number_to_string 52428800 = "52428800".
Proof. reflexivity. Qed.
Example number_to_string_zero : number_to_string 0 = "0".
Proof. reflexivity. Qed.
Example isValidPdf_header : isValidPdf (app pdf_signature ["1"; "."; "7"]%byte) = true.
Proof. reflexivity. Qed.
Example isValidPdf_short : isValidPdf ["%"; "P"; "D"]%byte = false.
Proof. reflexivity. Qed.
Example round_51 : Math_round (inject_Z 52953088 / 1024 / 1024)%Q = 51.
Proof. reflexivity. Qed.
Example extract_empty :
  extract_handler (Ok []) (Ok (Some "x", 1)) clk0
  = (400, {| pdf_success := false; pdf_text := ""; pdf_pageCount := 0;
             pdf_error := Some "No PDF data provided";
             pdf_processingTimeMs := None |}, 0%nat).
Proof. reflexivity. Qed.
Example extract_ok :
  extract_handler (Ok (app pdf_signature ["1"]%byte)) (Ok (None, 3)) clk0
  = (200, {| pdf_success := true; pdf_text := ""; pdf_pageCount := 3;
             pdf_error := None; pdf_processingTimeMs := Some 253 |}, 1%nat).
Proof. reflexivity. Qed.

Example parse_jane :
  let '(st, r, calls) :=
    parse_handler parse_name_doc env_gateway (Ok jane_request)
      (FetchResponse 200 "" (Ok jane_reply)) clk0 in
  st = 200 /\ ai_data r = JArray [JNumber 1] /\ length calls = 1%nat
  /\ map out_url calls
     = ["https://gateway.ai.cloudflare.com/v1/acct/gw/openrouter/chat/completions"].
Proof. vm_compute. repeat split. Qed.

Example parse_api_500 :
  let '(st, r, _) :=
    parse_handler parse_name_doc env_gateway (Ok jane_request)
      (FetchResponse 500 "boom" (Throw NonErr)) clk0 in
  st = 500 /\ ai_error r = Some "API error (500): boom".
Proof. vm_compute. split; reflexivity. Qed.

Example parse_no_config :
  let '(st, r, calls) :=
    parse_handler parse_name_doc env_none (Ok jane_request)
      (FetchResponse 200 "" (Ok jane_reply)) clk0 in
  st = 500 /\ ai_error r = Some no_config_message /\ calls = [].
Proof. vm_compute. repeat split. Qed.

(** ** Auxiliary lemmas *)

Lemma map_byte_of_ascii_of_byte (l : list byte) :
  map byte_of_ascii (map ascii_of_byte l) = l.
Proof.
  induction l as [|b l IH]; simpl; [reflexivity|].
  rewrite byte_of_ascii_of_byte, IH. reflexivity.
Qed.

Lemma fromCharCode_inj (a b : list byte) :
  fromCharCode a = fromCharCode b -> a = b.
Proof.
  unfold fromCharCode. intros H.
  apply (f_equal list_ascii_of_string) in H.
  rewrite !list_ascii_of_string_of_list_ascii in H.
  apply (f_equal (map byte_of_ascii)) in H.
  now rewrite !map_byte_of_ascii_of_byte in H.
Qed.

(** [isValidPdf] holds exactly when the first five bytes are [%PDF-]. *)
Lemma isValidPdf_spec (buf : list byte) :
  isValidPdf buf = true <-> firstn 5 buf = pdf_signature.
Proof.
  unfold isValidPdf.
  destruct buf as [|b0 [|b1 [|b2 [|b3 [|b4 rest]]]]];
    try (simpl; split; discriminate).
  cbv beta iota zeta delta [length firstn Nat.ltb Nat.leb].
  rewrite prefix_correct. simpl. split.
  - intros H. apply fromCharCode_inj. exact H.
  - intros H. injection H as -> -> -> -> ->. reflexivity.
Qed.

(** [Math.round(n / 1024 / 1024)] is [n] in MiB, rounded half up. *)
Lemma round_mib (n : Z) :
  Math_round (inject_Z n / 1024 / 1024)%Q = (2 * n + 1048576) / 2097152.
Proof.
  unfold Math_round.
  assert (E : (inject_Z n / 1024 / 1024 + (1 # 2) == (2 * n + 1048576) # 2097152)%Q).
  { unfold Qeq, Qdiv, Qmult, Qplus, Qinv, inject_Z. cbn [Qnum Qden].
    rewrite ?Pos2Z.inj_mul. lia. }
  rewrite E. reflexivity.
Qed.

Lemma round_kib (n : Z) :
  Math_round (inject_Z n / 1024)%Q = (2 * n + 1024) / 2048.
Proof.
  unfold Math_round.
  assert (E : (inject_Z n / 1024 + (1 # 2) == (2 * n + 1024) # 2048)%Q).
  { unfold Qeq, Qdiv, Qmult, Qplus, Qinv, inject_Z. cbn [Qnum Qden].
    rewrite ?Pos2Z.inj_mul. lia. }
  rewrite E. reflexivity.
Qed.

(** The rounded value [m] is the nearest multiple of [d]: [n] lies in
    [[m*d - d/2, m*d + d/2)]. *)
Lemma round_half_up_bounds (n h : Z) :
  0 < h -> let m := (2 * n + 2 * h) / (4 * h) in
  m * (2 * h) - h <= n < m * (2 * h) + h.
Proof.
  intros Hh m.
  pose proof (Z.div_mod (2 * n + 2 * h) (4 * h) ltac:(lia)) as D.
  pose proof (Z.mod_pos_bound (2 * n + 2 * h) (4 * h) ltac:(lia)) as B.
  fold m in D. lia.
Qed.

Ltac split_matches :=
  repeat match goal with
  | |- context [match ?x with _ => _ end] => destruct x eqn:?
  | H : context [match ?x with _ => _ end] |- _ => destruct x eqn:?
  end.

Lemma normalize_shape (JSON_parse : string -> option jsval) c u d :
  let r := snd (normalize JSON_parse c u d) in
  if ai_success r then True else ai_data r = JNull.
Proof.
  unfold normalize; split_matches; simpl in *; try discriminate; trivial.
Qed.

Lemma parse_try_shape (JSON_parse : string -> option jsval) env req up clk
    calls st r :
  parse_try JSON_parse env req up clk = (calls, Ok (st, r)) ->
  if ai_success r then True else ai_data r = JNull.
Proof.
  unfold parse_try. intros H.
  repeat match goal with
  | H : context [match ?x with _ => _ end] |- _ => destruct x eqn:?
  end;
    try discriminate; inversion H; subst; simpl; trivial.
  match goal with
  | E : normalize ?p ?c ?u ?d = (st, r) |- _ =>
      pose proof (normalize_shape p c u d) as S;
      rewrite E in S; exact S
  end.
Qed.

Lemma configured_truthy (o : option string) :
  configured o <-> env_truthy o = true.
Proof.
  unfold configured, env_truthy. split.
  - intros (s & -> & Hs). apply String.eqb_neq in Hs. now rewrite Hs.
  - destruct o as [s|]; [|discriminate]. intros H.
    exists s. split; [reflexivity|]. apply String.eqb_neq.
    now destruct (String.eqb s "").
Qed.

Lemma substring_prefix (n : nat) (s : string) :
  String.prefix (substring 0 n s) s = true.
Proof.
  revert n. induction s as [|a s IH]; intros [|n]; simpl; try reflexivity.
  destruct (ascii_dec a a) as [_|C]; [apply IH|contradiction].
Qed.

Lemma substring_length (n : nat) (s : string) :
  (String.length (substring 0 n s) <= n)%nat.
Proof.
  revert n. induction s as [|a s IH]; intros [|n]; simpl; try lia.
  specialize (IH n). lia.
Qed.

Lemma normalize_status (JSON_parse : string -> option jsval) c u d :
  fst (normalize JSON_parse c u d) = 500 \/ fst (normalize JSON_parse c u d) = 200.
Proof.
  unfold normalize. split_matches; simpl; auto.
Qed.

(** Once [text] is a non-empty string and [schema] an object, the handler
    goes on to the size check, the endpoint selection and the call. *)
Lemma parse_try_checked (JSON_parse : string -> option jsval) env ms s up clk :
  member "text" ms = JString s -> s <> "" -> is_object (member "schema" ms) = true ->
  parse_try JSON_parse env (Ok (JObject ms)) up clk
  = if Nat.ltb maxTextSize (String.length s) then
      ([], Ok (413, parse_failure
                 ("Text too large: "
                  ++ number_to_string
                       (Math_round (inject_Z (Z.of_nat (String.length s)) / 1024)%Q)
                  ++ "KB exceeds 100KB limit") None))
    else
      match buildApiUrl env with
      | Throw e =>
          ([], Ok (500, parse_failure (message_or e "API configuration error") None))
      | Ok cfg =>
          ([outbound_for cfg ms],
           match call_api up with
           | Throw e => Throw e
           | Ok r => Ok (normalize JSON_parse (first_content r) (usage r)
                           (withTiming_duration clk))
           end)
      end.
Proof.
  intros Ht Hne Hs. unfold parse_try, outbound_for. cbn [bind get_prop].
  rewrite Ht. apply String.eqb_neq in Hne.
  cbn [truthy typeof js_length]. rewrite Hne. cbn [negb orb String.eqb].
  destruct (member "schema" ms) eqn:Sc; try discriminate Hs;
    cbn [truthy typeof negb orb]; rewrite ?String.eqb_refl; cbn [negb];
    destruct (Nat.ltb maxTextSize (String.length s)); try reflexivity;
    destruct (buildApiUrl env); reflexivity.
Qed.

Lemma string_append_assoc (a b c : string) : (a ++ b) ++ c = a ++ (b ++ c).
Proof. induction a as [|x a IH]; simpl; [reflexivity|now rewrite IH]. Qed.

Lemma jsval_match_id (v : jsval) :
  match v with
  | JUndefined => JUndefined
  | JNull => JNull
  | JBool b => JBool b
  | JNumber q => JNumber q
  | JString s0 => JString s0
  | JArray items => JArray items
  | JObject members => JObject members
  end = v.
Proof. destruct v; reflexivity. Qed.

(** A validated request with a usable endpoint makes exactly one
    outbound request, [outbound_for cfg ms]. *)
Lemma parse_handler_calls (JSON_parse : string -> option jsval) env cfg ms s up clk :
  member "text" ms = JString s -> s <> "" -> Z.of_nat (String.length s) <= 102400 ->
  is_object (member "schema" ms) = true -> buildApiUrl env = Ok cfg ->
  snd (parse_handler JSON_parse env (Ok (JObject ms)) up clk) = [outbound_for cfg ms].
Proof.
  intros Ht Hne Hlen Hs Hcfg.
  unfold parse_handler. rewrite (parse_try_checked JSON_parse env ms s up clk Ht Hne Hs).
  replace (Nat.ltb maxTextSize (String.length s)) with false
    by (symmetry; apply Nat.ltb_ge; unfold maxTextSize; lia).
  rewrite Hcfg. destruct (call_api up) as [r|e]; [|reflexivity].
  destruct (normalize JSON_parse (first_content r) (usage r) (withTiming_duration clk)).
  reflexivity.
Qed.

(** ** Claims *)

(** C1: every [/extract] response with [success=false] has [text=""] and
    [pageCount=0], every one with [success=true] has no [error]; every
    [/parse] response with [success=false] has [data=null]. *)
Theorem C1_discriminated_shape :
  (forall buffer_in engine clk,
     let '(_, r, _) := extract_handler buffer_in engine clk in
     if pdf_success r then pdf_error r = None
     else pdf_text r = "" /\ pdf_pageCount r = 0)
  /\ (forall JSON_parse env req up clk,
     let '(_, r, _) := parse_handler JSON_parse env req up clk in
     if ai_success r then True else ai_data r = JNull).
Proof.
  split.
  - intros buffer_in engine clk. unfold extract_handler.
    destruct buffer_in as [buffer|e]; [|simpl; split; reflexivity].
    destruct (Z.eqb _ 0); [simpl; split; reflexivity|].
    destruct (negb (isValidPdf buffer)); [simpl; split; reflexivity|].
    destruct (Z.gtb _ maxSize); [simpl; split; reflexivity|].
    destruct engine as [[text pages]|e]; simpl; [reflexivity|split; reflexivity].
  - intros JSON_parse env req up clk. unfold parse_handler.
    destruct (parse_try JSON_parse env req up clk) as [calls [[st r]|e]] eqn:E.
    + exact (parse_try_shape JSON_parse env req up clk calls st r E).
    + reflexivity.
Qed.

(** C2: [/extract] checks emptiness, then the [%PDF-] signature, then the
    50 MiB limit, all before calling the PDF engine: an empty body gives
    400 ["No PDF data provided"]; a non-empty body whose first five bytes
    are not [%PDF-] gives 400 with [text=""], [pageCount=0]; a body with
    the signature and more than 52,428,800 bytes gives 413 with its size
    rounded to the nearest whole MiB in the message. *)
Theorem C2_extract_validation_order :
  forall engine clk,
  extract_handler (Ok []) engine clk
    = (400, {| pdf_success := false; pdf_text := ""; pdf_pageCount := 0;
               pdf_error := Some "No PDF data provided";
               pdf_processingTimeMs := None |}, 0%nat)
  /\ (forall buf, buf <> [] -> firstn 5 buf <> pdf_signature ->
      exists msg, extract_handler (Ok buf) engine clk
        = (400, {| pdf_success := false; pdf_text := ""; pdf_pageCount := 0;
                   pdf_error := Some msg; pdf_processingTimeMs := None |}, 0%nat))
  /\ (forall buf, firstn 5 buf = pdf_signature ->
      52428800 < Z.of_nat (length buf) ->
      exists m, extract_handler (Ok buf) engine clk
        = (413, {| pdf_success := false; pdf_text := ""; pdf_pageCount := 0;
                   pdf_error := Some ("PDF too large: " ++ number_to_string m
                                      ++ "MB exceeds 50MB limit");
                   pdf_processingTimeMs := None |}, 0%nat)
        /\ m * 1048576 - 524288 <= Z.of_nat (length buf) < m * 1048576 + 524288).
Proof.
  intros engine clk. split; [reflexivity|split].
  - intros buf Hne Hsig. unfold extract_handler.
    destruct (Z.eqb (Z.of_nat (length buf)) 0) eqn:E0.
    + apply Z.eqb_eq in E0. destruct buf; [contradiction|simpl in E0; lia].
    + destruct (isValidPdf buf) eqn:V.
      * apply isValidPdf_spec in V. contradiction.
      * simpl. eexists. reflexivity.
  - intros buf Hsig Hlen. unfold extract_handler.
    assert (V : isValidPdf buf = true) by (apply isValidPdf_spec; exact Hsig).
    replace (Z.eqb (Z.of_nat (length buf)) 0) with false by (symmetry; apply Z.eqb_neq; lia).
    rewrite V. simpl negb. cbv iota.
    replace (Z.gtb (Z.of_nat (length buf)) maxSize) with true
      by (symmetry; apply Z.gtb_lt; unfold maxSize; lia).
    rewrite round_mib.
    eexists. split; [reflexivity|].
    pose proof (round_half_up_bounds (Z.of_nat (length buf)) 524288 ltac:(lia)) as B.
    simpl in B. exact B.
Qed.

(** C10: a [/parse] body that [c.req.json()] cannot parse ends in the
    outer [catch]: 500, [success=false], [data=null], the parser's message
    as [error], [processingTimeMs] set, and no outbound call. *)
Theorem C10_unparseable_body :
  forall JSON_parse env msg up clk,
  parse_handler JSON_parse env (Throw (ErrObj msg)) up clk
  = (500, {| ai_success := false; ai_data := JNull; ai_usage := None;
             ai_error := Some msg;
             ai_processingTimeMs := Some (catch_elapsed clk) |}, []).
Proof. reflexivity. Qed.

(** C3 (amended): for a body other than JSON [null], a [text] that is not
    a string or a [schema] that is not an object gives 400 with
    [success=false], [data=null] and no outbound call; a [null] body fails
    reading [text] and gives 500 with [success=false], [data=null] and no
    outbound call; a body whose [text] is a string of more than 102,400
    characters and whose [schema] is an object gives 413 with the size
    rounded to the nearest KiB in the message and no outbound call. *)
Theorem C3_parse_validation :
  forall (JSON_parse : string -> option jsval) env up clk,
  (forall body, body <> JNull -> body <> JUndefined ->
     is_string (field body "text") = false \/ is_object (field body "schema") = false ->
     exists msg, parse_handler JSON_parse env (Ok body) up clk
                 = (400, parse_failure msg None, []))
  /\ parse_handler JSON_parse env (Ok JNull) up clk
     = (500, parse_failure "Cannot read properties of null (reading 'text')"
               (Some (catch_elapsed clk)), [])
  /\ (forall ms s, member "text" ms = JString s ->
      is_object (member "schema" ms) = true ->
      102400 < Z.of_nat (String.length s) ->
      exists m, parse_handler JSON_parse env (Ok (JObject ms)) up clk
        = (413, parse_failure ("Text too large: " ++ number_to_string m
                               ++ "KB exceeds 100KB limit") None, [])
        /\ m * 1024 - 512 <= Z.of_nat (String.length s) < m * 1024 + 512).
Proof.
  intros JSON_parse env up clk. split; [|split; [reflexivity|]].
  - intros body Hnull Hund Hcase.
    destruct body as [| |b|q|str|items|ms]; try contradiction;
      try (eexists; reflexivity).
    simpl in Hcase. unfold parse_handler, parse_try. cbn [bind get_prop].
    destruct (member "text" ms) as [| |b|q|t|items|ms'] eqn:T;
      cbn [truthy typeof negb orb String.eqb]; rewrite ?orb_true_r;
      try (eexists; reflexivity).
    destruct (String.eqb t "") eqn:Et; cbn [negb orb];
      [eexists; reflexivity|].
    destruct Hcase as [Hc|Hc]; [discriminate|].
    destruct (member "schema" ms) as [| |b|q|t'|items|ms'] eqn:S;
      try discriminate Hc;
      cbn [truthy typeof negb orb String.eqb]; rewrite ?orb_true_r;
      eexists; reflexivity.
  - intros ms s Ht Hs Hlen.
    assert (Hne : s <> "") by (intros ->; simpl in Hlen; lia).
    unfold parse_handler. rewrite (parse_try_checked JSON_parse env ms s up clk Ht Hne Hs).
    replace (Nat.ltb maxTextSize (String.length s)) with true
      by (symmetry; apply Nat.ltb_lt; unfold maxTextSize; lia).
    rewrite round_kib. eexists. split; [reflexivity|].
    pose proof (round_half_up_bounds (Z.of_nat (String.length s)) 512 ltac:(lia)) as B.
    simpl in B. exact B.
Qed.

(** C3, as stated, fails twice: a [text] of 102,401 characters with no
    [schema] gives 400 (the [schema] check comes first), not 413; and a
    JSON [null] body, which has no [text], gives 500, not 400. *)
Lemma C3_counterexample :
  ~ (forall (JSON_parse : string -> option jsval) env up clk ms s,
       member "text" ms = JString s -> 102400 < Z.of_nat (String.length s) ->
       fst (fst (parse_handler JSON_parse env (Ok (JObject ms)) up clk)) = 413)
  /\ ~ (forall (JSON_parse : string -> option jsval) env up clk body,
       is_string (field body "text") = false ->
       fst (fst (parse_handler JSON_parse env (Ok body) up clk)) = 400).
Proof.
  split; intros H.
  - assert (L : 102400 < Z.of_nat (String.length long_text))
      by (vm_compute; reflexivity).
    specialize (H parse_name_doc env_gateway (FetchThrows NonErr) clk0
                  [("text", JString long_text)] long_text eq_refl L).
    vm_compute in H. discriminate H.
  - specialize (H parse_name_doc env_gateway (FetchThrows NonErr) clk0 JNull eq_refl).
    vm_compute in H. discriminate H.
Qed.

(** C4: the gateway endpoint is chosen whenever account id, gateway id and
    token are all set (whatever the direct key); otherwise the direct
    endpoint when the key is set; with neither, a validated request gets
    500 with the configuration message and no outbound call. *)
Theorem C4_endpoint_selection :
  (forall env,
     configured (CF_AI_GATEWAY_ACCOUNT_ID env) -> configured (CF_AI_GATEWAY_ID env) ->
     configured (CF_AIG_AUTH_TOKEN env) ->
     buildApiUrl env
     = Ok {| url := "https://gateway.ai.cloudflare.com/v1/"
                    ++ env_str (CF_AI_GATEWAY_ACCOUNT_ID env) ++ "/"
                    ++ env_str (CF_AI_GATEWAY_ID env) ++ "/openrouter/chat/completions";
             authHeader := "cf-aig-authorization";
             authValue := "Bearer " ++ env_str (CF_AIG_AUTH_TOKEN env) |})
  /\ (forall env,
     ~ (configured (CF_AI_GATEWAY_ACCOUNT_ID env) /\ configured (CF_AI_GATEWAY_ID env)
        /\ configured (CF_AIG_AUTH_TOKEN env)) ->
     configured (OPENROUTER_API_KEY env) ->
     buildApiUrl env
     = Ok {| url := "https://openrouter.ai/api/v1/chat/completions";
             authHeader := "Authorization";
             authValue := "Bearer " ++ env_str (OPENROUTER_API_KEY env) |})
  /\ (forall (JSON_parse : string -> option jsval) env ms s up clk,
     member "text" ms = JString s -> s <> "" -> Z.of_nat (String.length s) <= 102400 ->
     is_object (member "schema" ms) = true ->
     ~ (configured (CF_AI_GATEWAY_ACCOUNT_ID env) /\ configured (CF_AI_GATEWAY_ID env)
        /\ configured (CF_AIG_AUTH_TOKEN env)) ->
     ~ configured (OPENROUTER_API_KEY env) ->
     parse_handler JSON_parse env (Ok (JObject ms)) up clk
     = (500, {| ai_success := false; ai_data := JNull; ai_usage := None;
                ai_error := Some no_config_message; ai_processingTimeMs := None |}, [])).
Proof.
  split; [|split].
  - intros env Ha Hg Ht. unfold buildApiUrl.
    rewrite (proj1 (configured_truthy _) Ha), (proj1 (configured_truthy _) Hg),
      (proj1 (configured_truthy _) Ht). simpl andb. cbv iota.
    unfold gateway_url. rewrite !string_append_assoc. reflexivity.
  - intros env Hno Hk. unfold buildApiUrl.
    replace (env_truthy (CF_AI_GATEWAY_ACCOUNT_ID env) && env_truthy (CF_AI_GATEWAY_ID env)
             && env_truthy (CF_AIG_AUTH_TOKEN env)) with false.
    + now rewrite (proj1 (configured_truthy _) Hk).
    + symmetry. apply not_true_iff_false. intros H.
      apply andb_prop in H as [H Ht]. apply andb_prop in H as [Ha Hg].
      apply Hno. rewrite !configured_truthy. auto.
  - intros JSON_parse env ms s up clk Ht Hne Hlen Hs Hno Hk.
    unfold parse_handler. rewrite (parse_try_checked JSON_parse env ms s up clk Ht Hne Hs).
    replace (Nat.ltb maxTextSize (String.length s)) with false
      by (symmetry; apply Nat.ltb_ge; unfold maxTextSize; lia).
    unfold buildApiUrl.
    replace (env_truthy (CF_AI_GATEWAY_ACCOUNT_ID env) && env_truthy (CF_AI_GATEWAY_ID env)
             && env_truthy (CF_AIG_AUTH_TOKEN env)) with false.
    + replace (env_truthy (OPENROUTER_API_KEY env)) with false; [reflexivity|].
      symmetry. apply not_true_iff_false. rewrite <- configured_truthy. exact Hk.
    + symmetry. apply not_true_iff_false. intros H.
      apply andb_prop in H as [H Ht']. apply andb_prop in H as [Ha Hg].
      apply Hno. rewrite !configured_truthy. auto.
Qed.

(** C5: for a validated request with a usable endpoint, the one outbound
    body takes [systemPrompt], [model], [temperature] and [maxTokens] from
    the request when present and their defaults exactly when absent; it
    holds a system message with the prompt and a user message with the
    text, a strict [json_schema] response format with the caller's schema;
    a [providerSort] list yields [provider] with [sort] set to it,
    [require_parameters:true] and [allow_fallbacks:false], and no
    [providerSort] yields no [provider] member. *)
Theorem C5_outbound_body :
  forall (JSON_parse : string -> option jsval) env cfg ms s up clk,
  member "text" ms = JString s -> s <> "" -> Z.of_nat (String.length s) <= 102400 ->
  is_object (member "schema" ms) = true ->
  buildApiUrl env = Ok cfg ->
  let '(_, _, calls) := parse_handler JSON_parse env (Ok (JObject ms)) up clk in
  exists o members sp,
    calls = [o] /\ out_body o = JObject members
    /\ (member "systemPrompt" ms = JUndefined -> sp = JString
          "Extract the requested information from the text and return valid JSON matching the schema.")
    /\ (member "systemPrompt" ms <> JUndefined -> sp = member "systemPrompt" ms)
    /\ member "messages" members
       = JArray [JObject [("role", JString "system"); ("content", sp)];
                 JObject [("role", JString "user"); ("content", JString s)]]
    /\ (member "model" ms = JUndefined ->
        member "model" members = JString "google/gemini-2.5-flash-lite")
    /\ (member "model" ms <> JUndefined -> member "model" members = member "model" ms)
    /\ (member "temperature" ms = JUndefined -> member "temperature" members = JNumber 0)
    /\ (member "temperature" ms <> JUndefined ->
        member "temperature" members = member "temperature" ms)
    /\ (member "maxTokens" ms = JUndefined -> member "max_tokens" members = JNumber 4096)
    /\ (member "maxTokens" ms <> JUndefined ->
        member "max_tokens" members = member "maxTokens" ms)
    /\ member "response_format" members
       = JObject [("type", JString "json_schema");
                  ("json_schema", JObject [("name", JString "extraction");
                                           ("strict", JBool true);
                                           ("schema", member "schema" ms)])]
    /\ (forall l, member "providerSort" ms = JArray l ->
        member "provider" members
        = JObject [("sort", JArray l); ("require_parameters", JBool true);
                   ("allow_fallbacks", JBool false)])
    /\ (member "providerSort" ms = JUndefined -> ~ In "provider" (map fst members)).
Proof.
  intros JSON_parse env cfg ms s up clk Ht Hne Hlen Hs Hcfg.
  pose proof (parse_handler_calls JSON_parse env cfg ms s up clk Ht Hne Hlen Hs Hcfg) as C.
  destruct (parse_handler JSON_parse env (Ok (JObject ms)) up clk) as [[st resp] calls].
  simpl in C. subst calls.
  assert (Hd : forall v d, (v = JUndefined -> with_default v d = d)
                           /\ (v <> JUndefined -> with_default v d = v)).
  { intros v d. split; [intros ->; reflexivity|].
    destruct v; try reflexivity; contradiction. }
  exists (outbound_for cfg ms).
  unfold outbound_for, request_body. cbn [out_body]. rewrite Ht.
  set (ps := member "providerSort" ms).
  assert (Hps : forall l, ps = JArray l -> truthy ps = true)
    by (intros l ->; reflexivity).
  eexists. exists (with_default (member "systemPrompt" ms) (JString default_systemPrompt)).
  split; [reflexivity|]. split; [reflexivity|].
  destruct (truthy ps) eqn:Tp; cbn [member String.eqb app Ascii.eqb Bool.eqb];
    rewrite ?jsval_match_id; repeat split; try apply Hd; try reflexivity.
  - intros l ->. reflexivity.
  - intros Hu. rewrite Hu in Tp. discriminate Tp.
  - intros l Hl. specialize (Hps l Hl). congruence.
  - intros _. simpl. intuition discriminate.
Qed.

(** C6: the reply's content falls in exactly one of three cases, each with
    [processingTimeMs] set: absent or empty gives 500 ["AI returned empty
    response"]; non-empty but not JSON gives 500 with an excerpt of at
    most 100 characters of the content; JSON gives [success=true] with
    the parsed value as [data].  On a 2xx reply the handler's answer is
    this classification of the first choice's content. *)
Theorem C6_content_classification :
  forall (JSON_parse : string -> option jsval),
  (forall c u d, c = None \/ c = Some "" ->
     normalize JSON_parse c u d
     = (500, {| ai_success := false; ai_data := JNull; ai_usage := None;
                ai_error := Some "AI returned empty response";
                ai_processingTimeMs := Some d |}))
  /\ (forall c u d, c <> "" -> JSON_parse c = None ->
     exists excerpt, (String.length excerpt <= 100)%nat
       /\ String.prefix excerpt c = true
       /\ normalize JSON_parse (Some c) u d
          = (500, {| ai_success := false; ai_data := JNull; ai_usage := None;
                     ai_error := Some ("AI returned invalid JSON: " ++ excerpt ++ "...");
                     ai_processingTimeMs := Some d |}))
  /\ (forall c v u d, c <> "" -> JSON_parse c = Some v ->
     exists us, normalize JSON_parse (Some c) u d
       = (200, {| ai_success := true; ai_data := v; ai_usage := us;
                  ai_error := None; ai_processingTimeMs := Some d |}))
  /\ (forall env cfg ms s status text r clk,
     member "text" ms = JString s -> s <> "" -> Z.of_nat (String.length s) <= 102400 ->
     is_object (member "schema" ms) = true -> buildApiUrl env = Ok cfg ->
     200 <= status <= 299 ->
     fst (parse_handler JSON_parse env (Ok (JObject ms))
            (FetchResponse status text (Ok r)) clk)
     = normalize JSON_parse (first_content r) (usage r) (withTiming_duration clk)).
Proof.
  intros JSON_parse. split; [|split; [|split]].
  - intros c u d [-> | ->]; reflexivity.
  - intros c u d Hne Hp. exists (substring 0 100 c).
    split; [apply substring_length|]. split; [apply substring_prefix|].
    destruct c as [|a c']; [contradiction|].
    unfold normalize. rewrite Hp. reflexivity.
  - intros c v u d Hne Hp. eexists.
    destruct c as [|a c']; [contradiction|].
    unfold normalize. rewrite Hp. reflexivity.
  - intros env cfg ms s status text r clk Ht Hne Hlen Hs Hcfg Hst.
    unfold parse_handler. rewrite (parse_try_checked JSON_parse env ms s _ clk Ht Hne Hs).
    replace (Nat.ltb maxTextSize (String.length s)) with false
      by (symmetry; apply Nat.ltb_ge; unfold maxTextSize; lia).
    rewrite Hcfg. unfold call_api.
    replace (response_ok status) with true
      by (symmetry; unfold response_ok; apply andb_true_intro;
          split; apply Z.leb_le; lia).
    simpl negb. cbv iota.
    destruct (normalize JSON_parse (first_content r) (usage r) (withTiming_duration clk)).
    reflexivity.
Qed.

(** C7: a non-2xx status from the model API gives 500 with
    [success=false], [data=null], the error ["API error (<status>): "]
    followed by the reply's body text, and [processingTimeMs] measured
    from the start of the request to the [catch]. *)
Theorem C7_upstream_error_status :
  forall (JSON_parse : string -> option jsval) env cfg ms s status text json clk,
  member "text" ms = JString s -> s <> "" -> Z.of_nat (String.length s) <= 102400 ->
  is_object (member "schema" ms) = true -> buildApiUrl env = Ok cfg ->
  status < 200 \/ 299 < status ->
  parse_handler JSON_parse env (Ok (JObject ms)) (FetchResponse status text json) clk
  = (500, {| ai_success := false; ai_data := JNull; ai_usage := None;
             ai_error := Some ("API error (" ++ number_to_string status ++ "): " ++ text);
             ai_processingTimeMs := Some (catch_elapsed clk) |},
     [outbound_for cfg ms]).
Proof.
  intros JSON_parse env cfg ms s status text json clk Ht Hne Hlen Hs Hcfg Hst.
  unfold parse_handler. rewrite (parse_try_checked JSON_parse env ms s _ clk Ht Hne Hs).
  replace (Nat.ltb maxTextSize (String.length s)) with false
    by (symmetry; apply Nat.ltb_ge; unfold maxTextSize; lia).
  rewrite Hcfg. unfold call_api.
  replace (response_ok status) with false.
  - reflexivity.
  - symmetry. unfold response_ok.
    destruct Hst as [H|H].
    + replace (Z.leb 200 status) with false by (symmetry; apply Z.leb_gt; lia). reflexivity.
    + replace (Z.leb status 299) with false by (symmetry; apply Z.leb_gt; lia).
      apply andb_false_r.
Qed.

(** C8: [GET /health] reports [aiGateway=true] with the gateway ids set
    but no gateway token, while endpoint selection, which needs the token,
    finds no configuration and a valid [/parse] request gets 500. *)
Theorem C8_health_gateway_flag_ignores_token :
  aiGateway (health_config (snd (health_handler env_gateway_no_token))) = true
  /\ ~ configured (CF_AIG_AUTH_TOKEN env_gateway_no_token)
  /\ buildApiUrl env_gateway_no_token = Throw (ErrObj no_config_message)
  /\ parse_handler parse_name_doc env_gateway_no_token (Ok jane_request)
       (FetchResponse 200 "" (Ok jane_reply)) clk0
     = (500, parse_failure no_config_message None, []).
Proof.
  split; [reflexivity|split; [|split; reflexivity]].
  intros (t & H & _). discriminate H.
Qed.

(** C9 (amended): when [text] is a non-empty string and [schema] an object,
    neither 400 response is returned: the request goes on to the size
    check and beyond (413, 500 or 200).  An empty-string [text] is
    rejected with the 400 ["Missing or invalid 'text' field"] response
    and no outbound call. *)
Theorem C9_missing_field_exhaustive :
  forall (JSON_parse : string -> option jsval) env up clk,
  (forall ms s,
   member "text" ms = JString s -> s <> "" -> is_object (member "schema" ms) = true ->
   let status := fst (fst (parse_handler JSON_parse env (Ok (JObject ms)) up clk)) in
   status <> 400 /\ (status = 413 \/ status = 500 \/ status = 200))
  /\ (forall ms, member "text" ms = JString "" ->
      parse_handler JSON_parse env (Ok (JObject ms)) up clk
      = (400, parse_failure "Missing or invalid 'text' field" None, [])).
Proof.
  intros JSON_parse env up clk. split.
  - intros ms s Ht Hne Hs status. unfold status.
    unfold parse_handler. rewrite (parse_try_checked JSON_parse env ms s up clk Ht Hne Hs).
    destruct (Nat.ltb maxTextSize (String.length s)); [simpl; lia|].
    destruct (buildApiUrl env); [|simpl; lia].
    destruct (call_api up) as [r|e]; [|simpl; lia].
    pose proof (normalize_status JSON_parse (first_content r) (usage r)
                  (withTiming_duration clk)) as N.
    destruct (normalize JSON_parse (first_content r) (usage r) (withTiming_duration clk)).
    simpl in *. lia.
  - intros ms Ht. unfold parse_handler, parse_try. cbn [bind get_prop].
    rewrite Ht. reflexivity.
Qed.

(** C9, as stated, fails: an empty [text] with an object [schema] gets
    the 400 ["Missing or invalid 'text' field"] response. *)
Lemma C9_counterexample :
  ~ (forall (JSON_parse : string -> option jsval) env up clk ms s,
       member "text" ms = JString s -> is_object (member "schema" ms) = true ->
       fst (fst (parse_handler JSON_parse env (Ok (JObject ms)) up clk)) <> 400).
Proof.
  intros H.
  apply (H parse_name_doc env_gateway (FetchThrows NonErr) clk0
           [("text", JString ""); ("schema", JObject [])] "" eq_refl eq_refl).
  reflexivity.
Qed.

(** ** Witnesses *)

Lemma C2_witness :
  (exists msg, extract_handler (Ok ["x"]%byte) (Ok (None, 0)) clk0
     = (400, {| pdf_success := false; pdf_text := ""; pdf_pageCount := 0;
                pdf_error := Some msg; pdf_processingTimeMs := None |}, 0%nat))
  /\ (exists m, extract_handler (Ok oversized_pdf) (Ok (None, 0)) clk0
        = (413, {| pdf_success := false; pdf_text := ""; pdf_pageCount := 0;
                   pdf_error := Some ("PDF too large: " ++ number_to_string m
                                      ++ "MB exceeds 50MB limit");
                   pdf_processingTimeMs := None |}, 0%nat)
        /\ m * 1048576 - 524288 <= Z.of_nat (length oversized_pdf)
           < m * 1048576 + 524288).
Proof.
  split.
  - apply (proj1 (proj2 (C2_extract_validation_order (Ok (None, 0)) clk0)));
      discriminate.
  - apply (proj2 (proj2 (C2_extract_validation_order (Ok (None, 0)) clk0))).
    + reflexivity.
    + unfold oversized_pdf. rewrite length_app, repeat_length, Nat2Z.inj_add, Z2Nat.id by lia.
      change (length pdf_signature) with 5%nat. lia.
Defined.

Lemma C3_witness :
  (exists msg, parse_handler parse_name_doc env_gateway
                 (Ok (JObject [("schema", JObject [])])) (FetchThrows NonErr) clk0
               = (400, parse_failure msg None, []))
  /\ (exists m, parse_handler parse_name_doc env_gateway
                  (Ok (JObject [("text", JString long_text); ("schema", JObject [])]))
                  (FetchThrows NonErr) clk0
        = (413, parse_failure ("Text too large: " ++ number_to_string m
                               ++ "KB exceeds 100KB limit") None, [])
        /\ m * 1024 - 512 <= Z.of_nat (String.length long_text) < m * 1024 + 512).
Proof.
  split.
  - apply (proj1 (C3_parse_validation parse_name_doc env_gateway (FetchThrows NonErr) clk0));
      [discriminate | discriminate | left; reflexivity].
  - apply (proj2 (proj2 (C3_parse_validation parse_name_doc env_gateway
                           (FetchThrows NonErr) clk0))).
    + reflexivity.
    + reflexivity.
    + vm_compute. reflexivity.
Defined.

Lemma C4_witness :
  buildApiUrl env_gateway
  = Ok {| url := "https://gateway.ai.cloudflare.com/v1/acct/gw/openrouter/chat/completions";
          authHeader := "cf-aig-authorization"; authValue := "Bearer tok" |}
  /\ buildApiUrl env_direct
     = Ok {| url := "https://openrouter.ai/api/v1/chat/completions";
             authHeader := "Authorization"; authValue := "Bearer key" |}
  /\ parse_handler parse_name_doc env_none (Ok (JObject jane_members))
       (FetchResponse 200 "" (Ok jane_reply)) clk0
     = (500, {| ai_success := false; ai_data := JNull; ai_usage := None;
                ai_error := Some no_config_message; ai_processingTimeMs := None |}, []).
Proof.
  split; [|split].
  - apply (proj1 C4_endpoint_selection env_gateway);
      [exists "acct" | exists "gw" | exists "tok"]; split; (reflexivity || discriminate).
  - apply (proj1 (proj2 C4_endpoint_selection) env_direct).
    + intros (_ & (g & G & _) & _). discriminate G.
    + exists "key". split; [reflexivity | discriminate].
  - apply (proj2 (proj2 C4_endpoint_selection) parse_name_doc env_none jane_members
             "Jane is an engineer").
    + reflexivity.
    + discriminate.
    + simpl. lia.
    + reflexivity.
    + intros ((a & A & _) & _). discriminate A.
    + intros (k & K & _). discriminate K.
Defined.

Lemma C5_witness :
  let '(_, _, calls) :=
    parse_handler parse_name_doc env_gateway (Ok (JObject jane_members))
      (FetchResponse 200 "" (Ok jane_reply)) clk0 in
  exists o members sp,
    calls = [o] /\ out_body o = JObject members
    /\ (member "systemPrompt" jane_members = JUndefined -> sp = JString
          "Extract the requested information from the text and return valid JSON matching the schema.")
    /\ (member "systemPrompt" jane_members <> JUndefined ->
        sp = member "systemPrompt" jane_members)
    /\ member "messages" members
       = JArray [JObject [("role", JString "system"); ("content", sp)];
                 JObject [("role", JString "user");
                          ("content", JString "Jane is an engineer")]]
    /\ (member "model" jane_members = JUndefined ->
        member "model" members = JString "google/gemini-2.5-flash-lite")
    /\ (member "model" jane_members <> JUndefined ->
        member "model" members = member "model" jane_members)
    /\ (member "temperature" jane_members = JUndefined ->
        member "temperature" members = JNumber 0)
    /\ (member "temperature" jane_members <> JUndefined ->
        member "temperature" members = member "temperature" jane_members)
    /\ (member "maxTokens" jane_members = JUndefined ->
        member "max_tokens" members = JNumber 4096)
    /\ (member "maxTokens" jane_members <> JUndefined ->
        member "max_tokens" members = member "maxTokens" jane_members)
    /\ member "response_format" members
       = JObject [("type", JString "json_schema");
                  ("json_schema", JObject [("name", JString "extraction");
                                           ("strict", JBool true);
                                           ("schema", member "schema" jane_members)])]
    /\ (forall l, member "providerSort" jane_members = JArray l ->
        member "provider" members
        = JObject [("sort", JArray l); ("require_parameters", JBool true);
                   ("allow_fallbacks", JBool false)])
    /\ (member "providerSort" jane_members = JUndefined ->
        ~ In "provider" (map fst members)).
Proof.
  apply (C5_outbound_body parse_name_doc env_gateway cfg_gateway jane_members
           "Jane is an engineer").
  - reflexivity.
  - discriminate.
  - simpl. lia.
  - reflexivity.
  - reflexivity.
Defined.

Lemma C6_witness :
  normalize parse_name_doc None None 7
  = (500, {| ai_success := false; ai_data := JNull; ai_usage := None;
             ai_error := Some "AI returned empty response";
             ai_processingTimeMs := Some 7 |})
  /\ (exists excerpt, (String.length excerpt <= 100)%nat
       /\ String.prefix excerpt "not json" = true
       /\ normalize parse_name_doc (Some "not json") None 7
          = (500, {| ai_success := false; ai_data := JNull; ai_usage := None;
                     ai_error := Some ("AI returned invalid JSON: " ++ excerpt ++ "...");
                     ai_processingTimeMs := Some 7 |}))
  /\ (exists us, normalize parse_name_doc (Some "[1]") None 7
       = (200, {| ai_success := true; ai_data := JArray [JNumber 1]; ai_usage := us;
                  ai_error := None; ai_processingTimeMs := Some 7 |}))
  /\ fst (parse_handler parse_name_doc env_gateway (Ok (JObject jane_members))
            (FetchResponse 200 "" (Ok jane_reply)) clk0)
     = normalize parse_name_doc (first_content jane_reply) (usage jane_reply)
         (withTiming_duration clk0).
Proof.
  destruct (C6_content_classification parse_name_doc) as (P1 & P2 & P3 & P4).
  split; [|split; [|split]].
  - apply P1. left. reflexivity.
  - apply P2; [discriminate | reflexivity].
  - apply P3; [discriminate | reflexivity].
  - apply (P4 env_gateway cfg_gateway jane_members "Jane is an engineer");
      [reflexivity | discriminate | simpl; lia | reflexivity | reflexivity | lia].
Defined.

Lemma C7_witness :
  parse_handler parse_name_doc env_gateway (Ok (JObject jane_members))
    (FetchResponse 500 "boom" (Throw NonErr)) clk0
  = (500, {| ai_success := false; ai_data := JNull; ai_usage := None;
             ai_error := Some ("API error (" ++ number_to_string 500 ++ "): " ++ "boom");
             ai_processingTimeMs := Some (catch_elapsed clk0) |},
     [outbound_for cfg_gateway jane_members]).
Proof.
  apply (C7_upstream_error_status parse_name_doc env_gateway cfg_gateway jane_members
           "Jane is an engineer");
    [reflexivity | discriminate | simpl; lia | reflexivity | reflexivity | lia].
Defined.

Lemma C9_witness :
  (let status := fst (fst (parse_handler parse_name_doc env_gateway
                             (Ok (JObject jane_members)) (FetchThrows NonErr) clk0)) in
   status <> 400 /\ (status = 413 \/ status = 500 \/ status = 200))
  /\ parse_handler parse_name_doc env_gateway
       (Ok (JObject [("text", JString ""); ("schema", JObject [])])) (FetchThrows NonErr) clk0
     = (400, parse_failure "Missing or invalid 'text' field" None, []).
Proof.
  split.
  - apply (proj1 (C9_missing_field_exhaustive parse_name_doc env_gateway
                    (FetchThrows NonErr) clk0) jane_members "Jane is an engineer");
      [reflexivity | discriminate | reflexivity].
  - apply (proj2 (C9_missing_field_exhaustive parse_name_doc env_gateway
                    (FetchThrows NonErr) clk0)).
    reflexivity.
Defined.

(** ** Further properties of the handlers *)

Lemma normalize_facts (JSON_parse : string -> option jsval) c u d :
  let '(st, r) := normalize JSON_parse c u d in
  ((st = 500 /\ ai_success r = false) \/ (st = 200 /\ ai_success r = true))
  /\ ai_processingTimeMs r = Some d.
Proof.
  unfold normalize. split_matches;
    match goal with H : (_, _) = (_, _) |- _ => inversion H; subst end;
    simpl; intuition congruence.
Qed.

Lemma parse_try_outcomes (JSON_parse : string -> option jsval) env req up clk
    calls out :
  parse_try JSON_parse env req up clk = (calls, out) ->
  (length calls <= 1)%nat /\
  match out with
  | Ok (st, r) =>
      ((st = 400 \/ st = 413 \/ st = 500) /\ calls = [] /\ ai_success r = false
       /\ ai_processingTimeMs r = None)
      \/ (calls <> []
          /\ ((st = 500 /\ ai_success r = false) \/ (st = 200 /\ ai_success r = true))
          /\ ai_processingTimeMs r = Some (withTiming_duration clk))
  | Throw _ => True
  end.
Proof.
  unfold parse_try. intros H.
  repeat match goal with
  | H : context [match ?x with _ => _ end] |- _ => destruct x eqn:?
  end;
    try discriminate; inversion H; subst; simpl; split; auto; try tauto.
  match goal with
  | |- context [normalize ?p ?c ?u ?d] =>
      pose proof (normalize_facts p c u d) as F;
      destruct (normalize p c u d) as [st r]
  end.
  right. split; [discriminate|]. tauto.
Qed.

(** [/extract]: the status is one of 200, 400, 413, 500; [success] holds
    exactly on 200; the PDF engine is called at most once, and never on a
    400 or 413; [processingTimeMs] is absent exactly on 400 and 413. *)
Theorem extract_outcomes :
  forall buffer_in engine clk,
  let '(st, r, n) := extract_handler buffer_in engine clk in
  (st = 200 \/ st = 400 \/ st = 413 \/ st = 500)
  /\ (pdf_success r = true <-> st = 200)
  /\ (n <= 1)%nat
  /\ (st = 400 \/ st = 413 -> n = 0%nat)
  /\ (pdf_processingTimeMs r = None <-> st = 400 \/ st = 413).
Proof.
  intros buffer_in engine clk. unfold extract_handler.
  destruct buffer_in as [buffer|e];
    [|simpl; repeat split; try lia; try discriminate; intros [H|H]; discriminate H].
  destruct (Z.eqb _ 0);
    [simpl; repeat split; auto; try lia; try discriminate|].
  destruct (negb (isValidPdf buffer));
    [simpl; repeat split; auto; try lia; try discriminate|].
  destruct (Z.gtb _ maxSize);
    [simpl; repeat split; auto; try lia; try discriminate|].
  destruct engine as [[text pages]|e]; simpl; repeat split; auto; try lia;
    try discriminate; intros [H|H]; discriminate H.
Qed.

(** [/parse]: the status is one of 200, 400, 413, 500; [success] holds
    exactly on 200; at most one outbound request is made, none on a 400 or
    413; every response that follows an outbound request carries
    [processingTimeMs]. *)
Theorem parse_outcomes :
  forall (JSON_parse : string -> option jsval) env req up clk,
  let '(st, r, calls) := parse_handler JSON_parse env req up clk in
  (st = 200 \/ st = 400 \/ st = 413 \/ st = 500)
  /\ (ai_success r = true <-> st = 200)
  /\ (length calls <= 1)%nat
  /\ (st = 400 \/ st = 413 -> calls = [])
  /\ (calls <> [] -> ai_processingTimeMs r <> None).
Proof.
  intros JSON_parse env req up clk. unfold parse_handler.
  destruct (parse_try JSON_parse env req up clk) as [calls out] eqn:E.
  destruct (parse_try_outcomes JSON_parse env req up clk calls out E) as [L O].
  destruct out as [[st r]|e].
  - destruct O as [(S & C & F & T) | (C & [(S & F)|(S & F)] & T)];
      rewrite ?F, ?T; subst; simpl;
      repeat split; auto; try lia; try discriminate; try congruence;
      intros [H|H]; lia.
  - simpl. repeat split; auto; try lia; try discriminate; intros [H|H]; discriminate H.
Qed.

Lemma Math_round_nonneg (q : Q) : (0 <= q)%Q -> 0 <= Math_round q.
Proof.
  intros Hq. unfold Math_round.
  change 0 with (Qfloor 0) at 1.
  apply Qfloor_resp_le.
  apply Qle_trans with q; [exact Hq|].
  rewrite <- (Qplus_0_r q) at 1. apply Qplus_le_compat; [apply Qle_refl|].
  unfold Qle; simpl; lia.
Qed.

(** With non-decreasing [performance.now()] readings, every
    [processingTimeMs] either handler reports is non-negative. *)
Theorem processingTime_nonneg :
  forall clk,
  (t_start clk <= t_call_begin clk)%Q -> (t_call_begin clk <= t_call_end clk)%Q ->
  (t_call_end clk <= t_catch clk)%Q ->
  (forall buffer_in engine t,
     let '(_, r, _) := extract_handler buffer_in engine clk in
     pdf_processingTimeMs r = Some t -> 0 <= t)
  /\ (forall (JSON_parse : string -> option jsval) env req up t,
     let '(_, r, _) := parse_handler JSON_parse env req up clk in
     ai_processingTimeMs r = Some t -> 0 <= t).
Proof.
  intros clk H1 H2 H3.
  assert (Hd : 0 <= withTiming_duration clk).
  { apply Math_round_nonneg. apply (proj1 (Qle_minus_iff _ _)). exact H2. }
  assert (Hc : 0 <= catch_elapsed clk).
  { apply Math_round_nonneg. apply (proj1 (Qle_minus_iff _ _)).
    apply Qle_trans with (t_call_begin clk); [exact H1|].
    apply Qle_trans with (t_call_end clk); assumption. }
  split.
  - intros buffer_in engine t. unfold extract_handler.
    destruct buffer_in as [buffer|e]; [|simpl; congruence].
    destruct (Z.eqb _ 0); [simpl; congruence|].
    destruct (negb (isValidPdf buffer)); [simpl; congruence|].
    destruct (Z.gtb _ maxSize); [simpl; congruence|].
    destruct engine as [[text pages]|e]; simpl; congruence.
  - intros JSON_parse env req up t. unfold parse_handler.
    destruct (parse_try JSON_parse env req up clk) as [calls out] eqn:E.
    destruct (parse_try_outcomes JSON_parse env req up clk calls out E) as [_ O].
    destruct out as [[st r]|e].
    + destruct O as [(_ & _ & _ & T) | (_ & _ & T)]; rewrite T; congruence.
    + simpl. congruence.
Qed.

(** [isValidPdf] looks at the first five bytes only: bytes after them
    never change the verdict, a buffer shorter than five bytes is never
    valid, and any buffer starting with [%PDF-] is. *)
Theorem isValidPdf_header_only :
  (forall buf rest, (5 <= length buf)%nat -> isValidPdf (app buf rest) = isValidPdf buf)
  /\ (forall buf, (length buf < 5)%nat -> isValidPdf buf = false)
  /\ (forall rest, isValidPdf (app pdf_signature rest) = true).
Proof.
  split; [|split].
  - intros buf rest Hl.
    destruct buf as [|b0 [|b1 [|b2 [|b3 [|b4 r]]]]]; simpl in Hl; try lia.
    reflexivity.
  - intros buf Hl.
    destruct buf as [|b0 [|b1 [|b2 [|b3 [|b4 r]]]]]; simpl in Hl; try lia;
      reflexivity.
  - intros rest. reflexivity.
Qed.

(** Just above the 50 MiB limit the size is rounded down: a body with the
    signature and between 52,428,801 and 52,953,087 bytes is rejected
    with ["PDF too large: 50MB exceeds 50MB limit"]. *)
Theorem extract_too_large_reports_50 :
  forall engine clk buf,
  firstn 5 buf = pdf_signature ->
  52428800 < Z.of_nat (length buf) < 52953088 ->
  extract_handler (Ok buf) engine clk
  = (413, {| pdf_success := false; pdf_text := ""; pdf_pageCount := 0;
             pdf_error := Some "PDF too large: 50MB exceeds 50MB limit";
             pdf_processingTimeMs := None |}, 0%nat).
Proof.
  intros engine clk buf Hsig Hlen. unfold extract_handler.
  assert (V : isValidPdf buf = true) by (apply isValidPdf_spec; exact Hsig).
  replace (Z.eqb (Z.of_nat (length buf)) 0) with false by (symmetry; apply Z.eqb_neq; lia).
  rewrite V. simpl negb. cbv iota.
  replace (Z.gtb (Z.of_nat (length buf)) maxSize) with true
    by (symmetry; apply Z.gtb_lt; unfold maxSize; lia).
  rewrite round_mib.
  replace ((2 * Z.of_nat (length buf) + 1048576) / 2097152) with 50
    by (apply Z.div_unique with (r := 2 * Z.of_nat (length buf) + 1048576 - 50 * 2097152);
        lia).
  reflexivity.
Qed.

(** Likewise a [text] of 102,401 to 102,911 characters (with an object
    [schema]) is rejected with ["Text too large: 100KB exceeds 100KB
    limit"]. *)
Theorem parse_too_large_reports_100 :
  forall (JSON_parse : string -> option jsval) env up clk ms s,
  member "text" ms = JString s -> is_object (member "schema" ms) = true ->
  102400 < Z.of_nat (String.length s) < 102912 ->
  parse_handler JSON_parse env (Ok (JObject ms)) up clk
  = (413, parse_failure "Text too large: 100KB exceeds 100KB limit" None, []).
Proof.
  intros JSON_parse env up clk ms s Ht Hs Hlen.
  assert (Hne : s <> "") by (intros ->; simpl in Hlen; lia).
  unfold parse_handler. rewrite (parse_try_checked JSON_parse env ms s up clk Ht Hne Hs).
  replace (Nat.ltb maxTextSize (String.length s)) with true
    by (symmetry; apply Nat.ltb_lt; unfold maxTextSize; lia).
  rewrite round_kib.
  replace ((2 * Z.of_nat (String.length s) + 1024) / 2048) with 100
    by (apply Z.div_unique with (r := 2 * Z.of_nat (String.length s) + 1024 - 100 * 2048);
        lia).
  reflexivity.
Qed.

(** Both size limits are inclusive: a signed body of exactly 52,428,800
    bytes reaches the PDF engine, and a [text] of exactly 102,400
    characters reaches the model API. *)
Theorem size_limits_inclusive :
  (forall engine clk buf,
     firstn 5 buf = pdf_signature -> Z.of_nat (length buf) = 52428800 ->
     snd (extract_handler (Ok buf) engine clk) = 1%nat)
  /\ (forall (JSON_parse : string -> option jsval) env cfg up clk ms s,
     member "text" ms = JString s -> Z.of_nat (String.length s) = 102400 ->
     is_object (member "schema" ms) = true -> buildApiUrl env = Ok cfg ->
     snd (parse_handler JSON_parse env (Ok (JObject ms)) up clk) = [outbound_for cfg ms]).
Proof.
  split.
  - intros engine clk buf Hsig Hlen. unfold extract_handler.
    assert (V : isValidPdf buf = true) by (apply isValidPdf_spec; exact Hsig).
    replace (Z.eqb (Z.of_nat (length buf)) 0) with false by (symmetry; apply Z.eqb_neq; lia).
    rewrite V. simpl negb. cbv iota.
    replace (Z.gtb (Z.of_nat (length buf)) maxSize) with false
      by (symmetry; rewrite Z.gtb_ltb; apply Z.ltb_ge; unfold maxSize; lia).
    destruct engine as [[t p]|e]; reflexivity.
  - intros JSON_parse env cfg up clk ms s Ht Hlen Hs Hcfg.
    assert (Hne : s <> "") by (intros ->; simpl in Hlen; lia).
    apply (parse_handler_calls JSON_parse env cfg ms s up clk Ht Hne); [lia | exact Hs | exact Hcfg].
Qed.

(** A validated request with a usable endpoint sends [outbound_for cfg ms]
    once; a thrown value ends in the [catch], a reply in [normalize]. *)
Lemma parse_handler_call_path (JSON_parse : string -> option jsval) env cfg ms s up clk :
  member "text" ms = JString s -> s <> "" -> Z.of_nat (String.length s) <= 102400 ->
  is_object (member "schema" ms) = true -> buildApiUrl env = Ok cfg ->
  parse_handler JSON_parse env (Ok (JObject ms)) up clk
  = match call_api up with
    | Throw e => (500, parse_failure (message_or e "Unknown error") (Some (catch_elapsed clk)),
                  [outbound_for cfg ms])
    | Ok r => let '(st, resp) := normalize JSON_parse (first_content r) (usage r)
                                   (withTiming_duration clk) in
              (st, resp, [outbound_for cfg ms])
    end.
Proof.
  intros Ht Hne Hlen Hs Hcfg.
  unfold parse_handler. rewrite (parse_try_checked JSON_parse env ms s up clk Ht Hne Hs).
  replace (Nat.ltb maxTextSize (String.length s)) with false
    by (symmetry; apply Nat.ltb_ge; unfold maxTextSize; lia).
  rewrite Hcfg. destruct (call_api up) as [r|e]; [|reflexivity].
  destruct (normalize JSON_parse (first_content r) (usage r) (withTiming_duration clk)).
  reflexivity.
Qed.

Lemma response_ok_2xx (status : Z) : 200 <= status <= 299 -> response_ok status = true.
Proof.
  intros H. unfold response_ok. apply andb_true_intro. split; apply Z.leb_le; lia.
Qed.

(** Only the first choice is read: with no [choices], an empty [choices]
    array, or a first choice without a message or with a [null] or empty
    [content], a 2xx reply gives 500 ["AI returned empty response"],
    whatever the later choices hold. *)
Theorem parse_empty_reply :
  forall (JSON_parse : string -> option jsval) env cfg ms s status text r clk,
  member "text" ms = JString s -> s <> "" -> Z.of_nat (String.length s) <= 102400 ->
  is_object (member "schema" ms) = true -> buildApiUrl env = Ok cfg ->
  200 <= status <= 299 ->
  (choices r = None \/ choices r = Some []
   \/ exists c rest, choices r = Some (c :: rest)
        /\ (message c = None \/ exists m, message c = Some m
              /\ (content m = None \/ content m = Some ""))) ->
  parse_handler JSON_parse env (Ok (JObject ms)) (FetchResponse status text (Ok r)) clk
  = (500, parse_failure "AI returned empty response" (Some (withTiming_duration clk)),
     [outbound_for cfg ms]).
Proof.
  intros JSON_parse env cfg ms s status text r clk Ht Hne Hlen Hs Hcfg Hst Hr.
  rewrite (parse_handler_call_path JSON_parse env cfg ms s _ clk Ht Hne Hlen Hs Hcfg).
  unfold call_api. rewrite (response_ok_2xx status Hst). simpl negb. cbv iota.
  assert (Hc : first_content r = None \/ first_content r = Some "").
  { unfold first_content.
    destruct Hr as [-> | [-> | (c & rest & -> & [-> | (m & -> & [-> | ->])])]]; auto. }
  destruct Hc as [-> | ->]; reflexivity.
Qed.

(** A network failure, or a 2xx reply whose body is not JSON, ends in the
    [catch] after the one outbound request: 500 with the thrown [Error]'s
    message, or ["Unknown error"] for a thrown non-[Error], and
    [processingTimeMs] measured up to the [catch]. *)
Theorem parse_transport_failures :
  forall (JSON_parse : string -> option jsval) env cfg ms s clk,
  member "text" ms = JString s -> s <> "" -> Z.of_nat (String.length s) <= 102400 ->
  is_object (member "schema" ms) = true -> buildApiUrl env = Ok cfg ->
  (forall m, parse_handler JSON_parse env (Ok (JObject ms)) (FetchThrows (ErrObj m)) clk
     = (500, parse_failure m (Some (catch_elapsed clk)), [outbound_for cfg ms]))
  /\ parse_handler JSON_parse env (Ok (JObject ms)) (FetchThrows NonErr) clk
     = (500, parse_failure "Unknown error" (Some (catch_elapsed clk)), [outbound_for cfg ms])
  /\ (forall status text m, 200 <= status <= 299 ->
     parse_handler JSON_parse env (Ok (JObject ms))
       (FetchResponse status text (Throw (ErrObj m))) clk
     = (500, parse_failure m (Some (catch_elapsed clk)), [outbound_for cfg ms])).
Proof.
  intros JSON_parse env cfg ms s clk Ht Hne Hlen Hs Hcfg.
  split; [|split].
  - intros m. rewrite (parse_handler_call_path JSON_parse env cfg ms s _ clk Ht Hne Hlen Hs Hcfg).
    reflexivity.
  - rewrite (parse_handler_call_path JSON_parse env cfg ms s _ clk Ht Hne Hlen Hs Hcfg).
    reflexivity.
  - intros status text m Hst.
    rewrite (parse_handler_call_path JSON_parse env cfg ms s _ clk Ht Hne Hlen Hs Hcfg).
    unfold call_api. rewrite (response_ok_2xx status Hst). reflexivity.
Qed.

(** A 2xx reply whose first content parses as JSON gives 200 with the
    parsed value as [data] (also when it is [null]), the reply's token
    counts renamed to camelCase, or no [usage] when the reply has none,
    and the duration of the call as [processingTimeMs]. *)
Theorem parse_success_reply :
  forall (JSON_parse : string -> option jsval) env cfg ms s status text r c v clk,
  member "text" ms = JString s -> s <> "" -> Z.of_nat (String.length s) <= 102400 ->
  is_object (member "schema" ms) = true -> buildApiUrl env = Ok cfg ->
  200 <= status <= 299 -> first_content r = Some c -> c <> "" -> JSON_parse c = Some v ->
  exists resp,
    parse_handler JSON_parse env (Ok (JObject ms)) (FetchResponse status text (Ok r)) clk
    = (200, resp, [outbound_for cfg ms])
    /\ ai_success resp = true /\ ai_data resp = v /\ ai_error resp = None
    /\ ai_processingTimeMs resp = Some (withTiming_duration clk)
    /\ (usage r = None -> ai_usage resp = None)
    /\ (forall u, usage r = Some u ->
        ai_usage resp = Some {| promptTokens := prompt_tokens u;
                                completionTokens := completion_tokens u;
                                totalTokens := total_tokens u |}).
Proof.
  intros JSON_parse env cfg ms s status text r c v clk Ht Hne Hlen Hs Hcfg Hst Hc Hc' Hv.
  rewrite (parse_handler_call_path JSON_parse env cfg ms s _ clk Ht Hne Hlen Hs Hcfg).
  unfold call_api. rewrite (response_ok_2xx status Hst). simpl negb. cbv iota.
  rewrite Hc. destruct c as [|a c0]; [contradiction|].
  unfold normalize. rewrite Hv.
  eexists. split; [reflexivity|]. cbn.
  repeat split; intros; subst; unfold convert_usage;
    match goal with H : usage r = _ |- _ => rewrite H end; reflexivity.
Qed.

(** The extraction result of an accepted body is passed through: 200 with
    the merged text ([""] when the engine yields none), the engine's page
    count and the duration of the call; an engine failure gives 500 with
    the [Error]'s message or ["Unknown extraction error"].  A failure to
    read the body gives 500 without calling the engine. *)
Theorem extract_engine_passthrough :
  (forall buf clk, firstn 5 buf = pdf_signature -> Z.of_nat (length buf) <= 52428800 ->
   (forall t pages, extract_handler (Ok buf) (Ok (Some t, pages)) clk
      = (200, {| pdf_success := true; pdf_text := t; pdf_pageCount := pages;
                 pdf_error := None;
                 pdf_processingTimeMs := Some (withTiming_duration clk) |}, 1%nat))
   /\ (forall pages, extract_handler (Ok buf) (Ok (None, pages)) clk
      = (200, {| pdf_success := true; pdf_text := ""; pdf_pageCount := pages;
                 pdf_error := None;
                 pdf_processingTimeMs := Some (withTiming_duration clk) |}, 1%nat))
   /\ (forall m, extract_handler (Ok buf) (Throw (ErrObj m)) clk
      = (500, {| pdf_success := false; pdf_text := ""; pdf_pageCount := 0;
                 pdf_error := Some m;
                 pdf_processingTimeMs := Some (catch_elapsed clk) |}, 1%nat))
   /\ extract_handler (Ok buf) (Throw NonErr) clk
      = (500, {| pdf_success := false; pdf_text := ""; pdf_pageCount := 0;
                 pdf_error := Some "Unknown extraction error";
                 pdf_processingTimeMs := Some (catch_elapsed clk) |}, 1%nat))
  /\ (forall m engine clk, extract_handler (Throw (ErrObj m)) engine clk
      = (500, {| pdf_success := false; pdf_text := ""; pdf_pageCount := 0;
                 pdf_error := Some m;
                 pdf_processingTimeMs := Some (catch_elapsed clk) |}, 0%nat)).
Proof.
  split; [|reflexivity].
  intros buf clk Hsig Hlen.
  assert (V : isValidPdf buf = true) by (apply isValidPdf_spec; exact Hsig).
  assert (Hnz : length buf <> 0%nat)
    by (intros H; destruct buf; [discriminate Hsig | discriminate H]).
  assert (P : forall engine, extract_handler (Ok buf) engine clk
    = match engine with
      | Throw e =>
          (500, {| pdf_success := false; pdf_text := ""; pdf_pageCount := 0;
                   pdf_error := Some (match e with ErrObj m => m
                                      | NonErr => "Unknown extraction error" end);
                   pdf_processingTimeMs := Some (catch_elapsed clk) |}, 1%nat)
      | Ok (text, totalPages) =>
          (200, {| pdf_success := true;
                   pdf_text := match text with Some t => t | None => "" end;
                   pdf_pageCount := totalPages; pdf_error := None;
                   pdf_processingTimeMs := Some (withTiming_duration clk) |}, 1%nat)
      end).
  { intros engine. unfold extract_handler.
    replace (Z.eqb (Z.of_nat (length buf)) 0) with false by (symmetry; apply Z.eqb_neq; lia).
    rewrite V. simpl negb. cbv iota.
    replace (Z.gtb (Z.of_nat (length buf)) maxSize) with false
      by (symmetry; rewrite Z.gtb_ltb; apply Z.ltb_ge; unfold maxSize; lia).
    reflexivity. }
  repeat split; intros; apply P.
Qed.

(** [provider] is added exactly when [providerSort] is truthy: [null],
    [false], [0] or [""] send no [provider], while an empty array or a
    non-empty string is sent as [provider.sort]. *)
Theorem parse_providerSort_truthiness :
  forall (JSON_parse : string -> option jsval) env cfg ms s up clk,
  member "text" ms = JString s -> s <> "" -> Z.of_nat (String.length s) <= 102400 ->
  is_object (member "schema" ms) = true -> buildApiUrl env = Ok cfg ->
  exists o members,
    snd (parse_handler JSON_parse env (Ok (JObject ms)) up clk) = [o]
    /\ out_body o = JObject members
    /\ (member "providerSort" ms = JNull \/ member "providerSort" ms = JBool false
        \/ member "providerSort" ms = JNumber 0 \/ member "providerSort" ms = JString "" ->
        ~ In "provider" (map fst members))
    /\ (forall ps, (ps = JArray [] \/ exists str, ps = JString str /\ str <> "") ->
        member "providerSort" ms = ps ->
        member "provider" members
        = JObject [("sort", ps); ("require_parameters", JBool true);
                   ("allow_fallbacks", JBool false)]).
Proof.
  intros JSON_parse env cfg ms s up clk Ht Hne Hlen Hs Hcfg.
  rewrite (parse_handler_calls JSON_parse env cfg ms s up clk Ht Hne Hlen Hs Hcfg).
  exists (outbound_for cfg ms).
  unfold outbound_for, request_body. cbn [out_body].
  eexists. split; [reflexivity|]. split; [reflexivity|].
  split.
  - intros Hf.
    replace (truthy (member "providerSort" ms)) with false
      by (destruct Hf as [-> | [-> | [-> | ->]]]; reflexivity).
    simpl. intuition discriminate.
  - intros ps Hps Heq. rewrite Heq.
    replace (truthy ps) with true.
    + cbn [member String.eqb app Ascii.eqb Bool.eqb]. rewrite ?jsval_match_id. reflexivity.
    + destruct Hps as [-> | (str & -> & Hstr)]; [reflexivity|].
      simpl. apply String.eqb_neq in Hstr. now rewrite Hstr.
Qed.

(** The outbound request goes to the gateway, authenticated with
    [cf-aig-authorization], when its account id, gateway id and token
    are set; otherwise, with an OpenRouter key, to OpenRouter with
    [Authorization]; either way with a JSON content type. *)
Theorem parse_outbound_target :
  forall (JSON_parse : string -> option jsval) env ms s up clk,
  member "text" ms = JString s -> s <> "" -> Z.of_nat (String.length s) <= 102400 ->
  is_object (member "schema" ms) = true ->
  (configured (CF_AI_GATEWAY_ACCOUNT_ID env) -> configured (CF_AI_GATEWAY_ID env) ->
   configured (CF_AIG_AUTH_TOKEN env) ->
   exists o, snd (parse_handler JSON_parse env (Ok (JObject ms)) up clk) = [o]
     /\ out_url o = "https://gateway.ai.cloudflare.com/v1/"
                    ++ env_str (CF_AI_GATEWAY_ACCOUNT_ID env) ++ "/"
                    ++ env_str (CF_AI_GATEWAY_ID env) ++ "/openrouter/chat/completions"
     /\ out_headers o = [("Content-Type", "application/json");
                         ("cf-aig-authorization",
                          "Bearer " ++ env_str (CF_AIG_AUTH_TOKEN env))])
  /\ (~ (configured (CF_AI_GATEWAY_ACCOUNT_ID env) /\ configured (CF_AI_GATEWAY_ID env)
        /\ configured (CF_AIG_AUTH_TOKEN env)) ->
      configured (OPENROUTER_API_KEY env) ->
      exists o, snd (parse_handler JSON_parse env (Ok (JObject ms)) up clk) = [o]
        /\ out_url o = "https://openrouter.ai/api/v1/chat/completions"
        /\ out_headers o = [("Content-Type", "application/json");
                            ("Authorization",
                             "Bearer " ++ env_str (OPENROUTER_API_KEY env))]).
Proof.
  intros JSON_parse env ms s up clk Ht Hne Hlen Hs. split.
  - intros Ha Hg Hk.
    apply configured_truthy in Ha, Hg, Hk.
    assert (Hcfg : buildApiUrl env = Ok
      {| url := gateway_url env ++ "/chat/completions";
         authHeader := "cf-aig-authorization";
         authValue := "Bearer " ++ env_str (CF_AIG_AUTH_TOKEN env) |})
      by (unfold buildApiUrl; now rewrite Ha, Hg, Hk).
    rewrite (parse_handler_calls JSON_parse env _ ms s up clk Ht Hne Hlen Hs Hcfg).
    eexists. split; [reflexivity|]. split; [|reflexivity].
    cbn [out_url outbound_for url]. unfold gateway_url.
    rewrite !string_append_assoc. reflexivity.
  - intros Hng Hk.
    assert (Hcfg : buildApiUrl env = Ok
      {| url := direct_url; authHeader := "Authorization";
         authValue := "Bearer " ++ env_str (OPENROUTER_API_KEY env) |}).
    { unfold buildApiUrl. apply configured_truthy in Hk. rewrite Hk.
      destruct (env_truthy (CF_AI_GATEWAY_ACCOUNT_ID env)) eqn:Ea,
               (env_truthy (CF_AI_GATEWAY_ID env)) eqn:Eg,
               (env_truthy (CF_AIG_AUTH_TOKEN env)) eqn:Et; try reflexivity.
      exfalso. apply Hng. rewrite !configured_truthy. auto. }
    rewrite (parse_handler_calls JSON_parse env _ ms s up clk Ht Hne Hlen Hs Hcfg).
    eexists. split; [reflexivity|]. split; reflexivity.
Qed.

(** [GET /health] always answers 200 ["ok"] for ["ai-parser"]; its
    [directOpenRouter] flag is set exactly when an OpenRouter key is
    configured and its [aiGateway] flag exactly when both gateway ids
    are. *)
Theorem health_flags :
  forall env,
  fst (health_handler env) = 200
  /\ health_status (snd (health_handler env)) = "ok"
  /\ health_service (snd (health_handler env)) = "ai-parser"
  /\ (aiGateway (health_config (snd (health_handler env))) = true
      <-> configured (CF_AI_GATEWAY_ACCOUNT_ID env) /\ configured (CF_AI_GATEWAY_ID env))
  /\ (directOpenRouter (health_config (snd (health_handler env))) = true
      <-> configured (OPENROUTER_API_KEY env)).
Proof.
  intros env. cbn. split; [reflexivity|]. split; [reflexivity|]. split; [reflexivity|].
  rewrite !configured_truthy. split; [apply andb_true_iff | reflexivity].
Qed.

(** The [text] check comes first: a body (neither [null] nor
    [undefined]) whose [text] is not a non-empty string gets 400
    ["Missing or invalid 'text' field"] whatever its [schema]; with a
    valid [text], a [schema] that is not an object gets 400 ["Missing or
    invalid 'schema' field"] whatever the size of [text]. *)
Theorem parse_rejection_messages :
  forall (JSON_parse : string -> option jsval) env up clk,
  (forall body, body <> JNull -> body <> JUndefined ->
   ~ (exists s, field body "text" = JString s /\ s <> "") ->
   parse_handler JSON_parse env (Ok body) up clk
   = (400, parse_failure "Missing or invalid 'text' field" None, []))
  /\ (forall ms s, member "text" ms = JString s -> s <> "" ->
      is_object (member "schema" ms) = false ->
      parse_handler JSON_parse env (Ok (JObject ms)) up clk
      = (400, parse_failure "Missing or invalid 'schema' field" None, [])).
Proof.
  intros JSON_parse env up clk. split.
  - intros body Hnull Hund Hbad.
    destruct body as [| |b|q|str|items|ms]; try contradiction; try reflexivity.
    unfold parse_handler, parse_try. cbn [bind get_prop].
    cbn [field] in Hbad.
    destruct (member "text" ms) as [| |b|q|t|items|ms'] eqn:T;
      cbn [truthy typeof negb orb String.eqb]; rewrite ?orb_true_r; try reflexivity.
    destruct (String.eqb t "") eqn:Et; cbn [negb orb]; [reflexivity|].
    exfalso. apply Hbad. exists t. split; [reflexivity|]. now apply String.eqb_neq.
  - intros ms s Ht Hne Hs.
    unfold parse_handler, parse_try. cbn [bind get_prop].
    rewrite Ht. apply String.eqb_neq in Hne.
    cbn [truthy typeof]. rewrite Hne. cbn [negb orb String.eqb].
    destruct (member "schema" ms); try discriminate Hs;
      simpl; rewrite ?orb_true_r; reflexivity.
Qed.

(** ** Witnesses of the further properties *)

Lemma processingTime_nonneg_witness :
  (forall buffer_in engine t,
     let '(_, r, _) := extract_handler buffer_in engine clk0 in
     pdf_processingTimeMs r = Some t -> 0 <= t)
  /\ (forall (JSON_parse : string -> option jsval) env req up t,
     let '(_, r, _) := parse_handler JSON_parse env req up clk0 in
     ai_processingTimeMs r = Some t -> 0 <= t).
Proof.
  apply (processingTime_nonneg clk0); unfold Qle; simpl; lia.
Defined.

Lemma extract_too_large_reports_50_witness :
  extract_handler (Ok oversized_pdf) (Ok (None, 0)) clk0
  = (413, {| pdf_success := false; pdf_text := ""; pdf_pageCount := 0;
             pdf_error := Some "PDF too large: 50MB exceeds 50MB limit";
             pdf_processingTimeMs := None |}, 0%nat).
Proof.
  apply extract_too_large_reports_50.
  - reflexivity.
  - unfold oversized_pdf. rewrite length_app, repeat_length, Nat2Z.inj_add, Z2Nat.id by lia.
    change (length pdf_signature) with 5%nat. lia.
Defined.

Lemma parse_too_large_reports_100_witness :
  parse_handler parse_name_doc env_gateway
    (Ok (JObject [("text", JString long_text); ("schema", JObject [])]))
    (FetchThrows NonErr) clk0
  = (413, parse_failure "Text too large: 100KB exceeds 100KB limit" None, []).
Proof.
  apply (parse_too_large_reports_100 parse_name_doc env_gateway (FetchThrows NonErr) clk0
           [("text", JString long_text); ("schema", JObject [])] long_text).
  - reflexivity.
  - reflexivity.
  - vm_compute. split; reflexivity.
Defined.

Lemma size_limits_inclusive_witness :
  snd (extract_handler (Ok limit_pdf) (Ok (None, 0)) clk0) = 1%nat
  /\ snd (parse_handler parse_name_doc env_gateway (Ok (JObject limit_members))
            (FetchThrows NonErr) clk0)
     = [outbound_for cfg_gateway limit_members].
Proof.
  split.
  - apply (proj1 size_limits_inclusive).
    + reflexivity.
    + unfold limit_pdf. rewrite length_app, repeat_length, Nat2Z.inj_add, Z2Nat.id by lia.
      change (length pdf_signature) with 5%nat. lia.
  - apply (proj2 size_limits_inclusive) with (s := limit_text).
    + reflexivity.
    + vm_compute. reflexivity.
    + reflexivity.
    + reflexivity.
Defined.

Lemma parse_empty_reply_witness :
  parse_handler parse_name_doc env_gateway (Ok jane_request)
    (FetchResponse 200 "" (Ok first_null_reply)) clk0
  = (500, parse_failure "AI returned empty response" (Some (withTiming_duration clk0)),
     [outbound_for cfg_gateway jane_members]).
Proof.
  apply (parse_empty_reply parse_name_doc env_gateway cfg_gateway jane_members
           "Jane is an engineer" 200 "" first_null_reply clk0).
  - reflexivity.
  - discriminate.
  - simpl. lia.
  - reflexivity.
  - reflexivity.
  - lia.
  - right. right. eexists. eexists. split; [reflexivity|].
    right. eexists. split; [reflexivity|]. left. reflexivity.
Defined.

Lemma parse_transport_failures_witness :
  parse_handler parse_name_doc env_gateway (Ok jane_request)
    (FetchThrows (ErrObj "fetch failed")) clk0
  = (500, parse_failure "fetch failed" (Some (catch_elapsed clk0)),
     [outbound_for cfg_gateway jane_members]).
Proof.
  refine (proj1 (parse_transport_failures parse_name_doc env_gateway cfg_gateway
                   jane_members "Jane is an engineer" clk0 eq_refl _ _ eq_refl eq_refl)
                "fetch failed").
  - discriminate.
  - simpl. lia.
Defined.

Lemma parse_success_reply_witness :
  exists resp,
    parse_handler parse_null_doc env_gateway (Ok jane_request)
      (FetchResponse 200 "" (Ok null_reply)) clk0
    = (200, resp, [outbound_for cfg_gateway jane_members])
    /\ ai_success resp = true /\ ai_data resp = JNull /\ ai_error resp = None
    /\ ai_processingTimeMs resp = Some (withTiming_duration clk0)
    /\ (usage null_reply = None -> ai_usage resp = None)
    /\ (forall u, usage null_reply = Some u ->
        ai_usage resp = Some {| promptTokens := prompt_tokens u;
                                completionTokens := completion_tokens u;
                                totalTokens := total_tokens u |}).
Proof.
  apply (parse_success_reply parse_null_doc env_gateway cfg_gateway jane_members
           "Jane is an engineer" 200 "" null_reply "null" JNull clk0).
  all: first [reflexivity | discriminate | (simpl; lia)].
Defined.

Lemma parse_providerSort_truthiness_witness :
  exists o members,
    snd (parse_handler parse_name_doc env_gateway (Ok (JObject sorted_members))
           (FetchThrows NonErr) clk0) = [o]
    /\ out_body o = JObject members
    /\ (member "providerSort" sorted_members = JNull
        \/ member "providerSort" sorted_members = JBool false
        \/ member "providerSort" sorted_members = JNumber 0
        \/ member "providerSort" sorted_members = JString "" ->
        ~ In "provider" (map fst members))
    /\ (forall ps, (ps = JArray [] \/ exists str, ps = JString str /\ str <> "") ->
        member "providerSort" sorted_members = ps ->
        member "provider" members
        = JObject [("sort", ps); ("require_parameters", JBool true);
                   ("allow_fallbacks", JBool false)]).
Proof.
  apply (parse_providerSort_truthiness parse_name_doc env_gateway cfg_gateway
           sorted_members "Jane is an engineer" (FetchThrows NonErr) clk0).
  all: first [reflexivity | discriminate | (simpl; lia)].
Defined.

Lemma parse_outbound_target_witness :
  (exists o, snd (parse_handler parse_name_doc env_gateway (Ok jane_request)
                    (FetchThrows NonErr) clk0) = [o]
     /\ out_url o = "https://gateway.ai.cloudflare.com/v1/acct/gw/openrouter/chat/completions"
     /\ out_headers o = [("Content-Type", "application/json");
                         ("cf-aig-authorization", "Bearer tok")])
  /\ (exists o, snd (parse_handler parse_name_doc env_direct (Ok jane_request)
                       (FetchThrows NonErr) clk0) = [o]
        /\ out_url o = "https://openrouter.ai/api/v1/chat/completions"
        /\ out_headers o = [("Content-Type", "application/json");
                            ("Authorization", "Bearer key")]).
Proof.
  split.
  - apply (proj1 (parse_outbound_target parse_name_doc env_gateway jane_members
                    "Jane is an engineer" (FetchThrows NonErr) clk0 eq_refl
                    ltac:(discriminate) ltac:(simpl; lia) eq_refl));
      eexists; split; reflexivity || discriminate.
  - apply (proj2 (parse_outbound_target parse_name_doc env_direct jane_members
                    "Jane is an engineer" (FetchThrows NonErr) clk0 eq_refl
                    ltac:(discriminate) ltac:(simpl; lia) eq_refl)).
    + intros (_ & (g & Hg & _) & _). discriminate Hg.
    + eexists. split; [reflexivity | discriminate].
Defined.
